(** * DocuWorks workers: a shallow embedding of the Celery tasks

    The development follows the three Python modules of the worker:

    - [worker/utils.py]         [update_state], the Redis state reporter;
    - [worker/pdf/compress.py]  [_update], [_safe_path], [_validate_file],
                                [_is_scanned], [LEVELS], [compress_pdf_task];
    - [worker/pdf/extract.py]   [extract_pdf_task].

    Python statements are rendered in a state-and-exception monad over a
    [world] that holds the Redis hashes, the pub/sub stream, the file system
    and a log of the calls made to outside collaborators.  The collaborators
    themselves (HTTP, pikepdf, PyMuPDF, the OCR and Ghostscript binaries,
    Cloudinary) are fields of a [host] record: every theorem quantifies over
    all of their behaviours, failures included.

    Conventions:
    - Redis is a reliable store: [publish] always succeeds, and [hset]
      fails only as redis-py itself does, when it is given no field;
    - Python's own file operations ([open], [write], the removal of a
      temporary directory) always succeed; what the external tools leave on
      the file system is up to the host;
    - [float] is IEEE-754 binary64, as primitive floats; only the rendering
      [f"{x:.1f}"] is left to the host;
    - an exception is its class together with the text of [str(e)]. *)

From Stdlib Require Import ZArith QArith PrimFloat Uint63 Sorted Ascii String.
From stdpp Require Import base gmap strings list pretty.

(** String literals, with the list and [nat] notations taking precedence. *)
Open Scope string_scope.
Open Scope list_scope.
Open Scope nat_scope.

(** ** Python values and exceptions *)

(** The keyword arguments handed to the state reporter are [str] and [int]
    objects. *)
Inductive pyval :=
  | PStr (s : string)
  | PInt (n : Z).

(** [str(v)]. *)
Definition py_str (v : pyval) : string :=
  match v with
  | PStr s => s
  | PInt n => pretty n
  end.

(** [**fields]: the keyword arguments in call order. *)
Definition kwargs := list (string * pyval).

(** The document [json.dumps] renders: an object whose members keep the
    order of the dictionary, a [str] as a JSON string and an [int] as a JSON
    number. The concrete text (quoting, escapes, separators) is not
    modelled. *)
Inductive jvalue :=
  | JString (s : string)
  | JNumber (n : Z).

Definition jobject := list (string * jvalue).

Definition to_json (v : pyval) : jvalue :=
  match v with
  | PStr s => JString s
  | PInt n => JNumber n
  end.

Definition json_dumps (fields : kwargs) : jobject :=
  map (λ kv, (kv.1, to_json kv.2)) fields.

Definition is_jstring (j : jvalue) : bool :=
  match j with JString _ => true | JNumber _ => false end.

(** Exception classes the tasks raise or dispatch on; everything else a
    library may raise is an [OtherException] named by its class. All of them
    derive from [Exception]. *)
Inductive exn_class :=
  | ValueError
  | RuntimeError
  | FileNotFoundError
  | KeyError
  | CalledProcessError
  | OtherException (name : string).

(** An exception object: its class and [str(e)]. *)
Record exn := Exn { exn_cls : exn_class; exn_text : string }.

Global Instance exn_class_eq_dec : EqDecision exn_class.
Proof. solve_decision. Defined.

Global Instance exn_eq_dec : EqDecision exn.
Proof. solve_decision. Defined.

(** ** PDF documents *)

(** A page as the classifier sees it: the image XObjects it draws (by name)
    and the keys of its [/Resources] dictionary. *)
Record page := Page {
  images : list string;
  resources : gset string;
}.

Record pdf := Pdf { pages : list page }.

(** ** The world *)

(** A file-system entry. *)
Inductive node :=
  | File (data : list Byte.byte)
  | Dir.

(** Calls made to collaborators outside the worker process, in order. *)
Inductive call :=
  | requests_get_call (url : string)
  | mkdtemp_call (dir : string)
  | cleanup_call (dir : string)
  | open_wb_call (path : string)
  | pikepdf_open_call (path : string)
  | pikepdf_save_call (path : string)
  | subprocess_run_call (cmd : list string)
  | cu_upload_call (path : string)
  | fitz_open_call
  | fitz_insert_pdf_call (from_page to_page : Z)
  | fitz_save_call (doc : list page)
  | cloudinary_upload_call (public_id : string).

Record world := World {
  redis_hashes : gmap string (gmap string string);
  redis_stream : list (string * jobject);
  fs : gmap string node;
  calls : list call;
}.

Definition set_redis (h : gmap string (gmap string string))
    (s : list (string * jobject)) (w : world) : world :=
  World h s (fs w) (calls w).

Definition set_fs (f : gmap string node) (w : world) : world :=
  World (redis_hashes w) (redis_stream w) f (calls w).

Definition log_call (c : call) (w : world) : world :=
  World (redis_hashes w) (redis_stream w) (fs w) (calls w ++ [c]).

(** ** The monad of Python statements *)

Inductive outcome (A : Type) :=
  | Return (a : A)
  | Raise (e : exn).
Arguments Return {A} a.
Arguments Raise {A} e.

Definition py (A : Type) : Type := world → outcome A * world.

Definition py_ret {A} (a : A) : py A := λ w, (Return a, w).

Definition py_bind {A B} (f : A → py B) (m : py A) : py B :=
  λ w, match m w with
       | (Return a, w') => f a w'
       | (Raise e, w') => (Raise e, w')
       end.

Global Instance py_mret : MRet py := @py_ret.
Global Instance py_mbind : MBind py := @py_bind.

Definition raise {A} (e : exn) : py A := λ w, (Raise e, w).

(** Lifting a pure library result. *)
Definition lift {A} (r : exn + A) : py A :=
  match r with
  | inr a => py_ret a
  | inl e => raise e
  end.

Definition modify (f : world → world) : py unit := λ w, (Return tt, f w).

Definition gets {A} (f : world → A) : py A := λ w, (Return (f w), w).

(** [try: body / except ... as e: handler(e); raise]. An exception raised by
    the handler itself replaces the one being handled. *)
Definition try_except_reraise {A} (body : py A) (handler : exn → py unit) : py A :=
  λ w, match body w with
       | (Return a, w') => (Return a, w')
       | (Raise e, w') =>
           match handler e w' with
           | (Return _, w'') => (Raise e, w'')
           | (Raise e', w'') => (Raise e', w'')
           end
       end.

(** ** State reporter *)

(** What [HSET name field value ...] does to the store: the given fields
    are merged into the hash stored at [name]; fields not mentioned keep
    their value. *)
Definition hset (name : string) (mapping : list (string * string))
    (h : gmap string (gmap string string)) : gmap string (gmap string string) :=
  <[name := foldl (λ r kv, <[kv.1 := kv.2]> r) (default ∅ (h !! name)) mapping]> h.

(** What [PUBLISH channel message] does to the stream. *)
Definition publish (channel : string) (message : jobject)
    (s : list (string * jobject)) : list (string * jobject) :=
  s ++ [(channel, message)].

(** [{k: str(v) for k, v in fields.items()}] *)
Definition str_mapping (fields : kwargs) : list (string * string) :=
  map (λ kv, (kv.1, py_str kv.2)) fields.

(** redis-py refuses an [hset] that names no field. *)
Definition DataError : exn :=
  Exn (OtherException "DataError") "'hset' with no key value pairs".

(** The statement [REDIS.hset(name, mapping=mapping)]. *)
Definition REDIS_hset (name : string) (mapping : list (string * string)) : py unit :=
  match mapping with
  | [] => raise DataError
  | _ :: _ =>
      modify (λ w, set_redis (hset name mapping (redis_hashes w)) (redis_stream w) w)
  end.

(** The statement [REDIS.publish(channel, message)]. *)
Definition REDIS_publish (channel : string) (message : jobject) : py unit :=
  modify (λ w, set_redis (redis_hashes w) (publish channel message (redis_stream w)) w).

(** [worker/pdf/compress.py], [_update]. *)
Definition _update (task_id : string) (fields : kwargs) : py unit :=
  REDIS_hset task_id (str_mapping fields);;
  REDIS_publish ("progress:" +:+ task_id) (json_dumps fields).

(** [worker/utils.py], [update_state]: the same two statements. *)
Definition update_state (task_id : string) (fields : kwargs) : py unit :=
  REDIS_hset task_id (str_mapping fields);;
  REDIS_publish ("progress:" +:+ task_id) (json_dumps fields).

(** [REDIS.hget(name, key)]: how an observer reads one field of a job. *)
Definition hget (name key : string) (h : gmap string (gmap string string))
    : option string :=
  default ∅ (h !! name) !! key.

Definition job_field (w : world) (task_id field : string) : option string :=
  hget task_id field (redis_hashes w).

(** The keyword argument named [k]. *)
Fixpoint kwarg (k : string) (fields : kwargs) : option pyval :=
  match fields with
  | [] => None
  | (k', v) :: rest => if String.eqb k k' then Some v else kwarg k rest
  end.

(** The member named [k] of a JSON object. *)
Fixpoint member (k : string) (o : jobject) : option jvalue :=
  match o with
  | [] => None
  | (k', v) :: rest => if String.eqb k k' then Some v else member k rest
  end.

(** ** Floating point *)

(** [float(n)] for a non-negative [int] below [2^53]. *)
Definition float_of_nat (n : nat) : float :=
  PrimFloat.of_uint63 (Uint63.of_Z (Z.of_nat n)).

Definition ZeroDivisionError : exn :=
  Exn (OtherException "ZeroDivisionError") "division by zero".

(** [a / b] on two [int]s: IEEE-754 binary64 division, correctly rounded. *)
Definition py_truediv (a b : nat) : exn + float :=
  if Nat.eqb b 0 then inl ZeroDivisionError
  else inr (PrimFloat.div (float_of_nat a) (float_of_nat b)).

(** ** Classifier *)

(** The literal [0.8] denotes the nearest binary64 value, as in Python. *)
#[local] Set Warnings "-inexact-float".

(** One iteration of the loop of [_is_scanned]. *)
Definition scanned_step (scanned_cnt : nat) (pg : page) : nat :=
  let has_images := (0 <? length (images pg))%nat in
  let has_fonts := bool_decide ("/Font" ∈ resources pg) in
  if has_images && negb has_fonts then scanned_cnt + 1 else scanned_cnt.

(** [worker/pdf/compress.py], [_is_scanned(pdf, sample=3)]. *)
Definition _is_scanned (doc : pdf) (sample : nat) : exn + bool :=
  let pgs := take sample (pages doc) in
  match pgs with
  | [] => inr false
  | _ :: _ =>
      let scanned_cnt := foldl scanned_step 0 pgs in
      match py_truediv scanned_cnt (length pgs) with
      | inl e => inl e
      | inr q => inr (PrimFloat.leb 0.8%float q)
      end
  end.

(** ** Quality profiles *)

Record level_cfg := LevelCfg {
  dpi : Z;
  jpeg_q : Z;
  jbig2 : string;
  gs : string;
}.

Definition LEVELS : gmap string level_cfg :=
  <["low" := LevelCfg 300 85 "--jbig2-lossless" "/printer"]>
  (<["medium" := LevelCfg 150 65 "--jbig2-lossless" "/ebook"]>
  (<["high" := LevelCfg 96 45 "--jbig2-lossy" "/screen"]> ∅)).

(** [d[key]] *)
Definition subscript {V} (d : gmap string V) (key : string) : py V :=
  match d !! key with
  | Some v => py_ret v
  | None => raise (Exn KeyError ("'" +:+ key +:+ "'"))
  end.

(** The first two statements of [compress_pdf_task]. *)
Definition resolve_level (compression_level : string) : string :=
  if bool_decide (compression_level ∈ dom LEVELS) then compression_level
  else "medium".

(** ** The host: everything outside the worker process *)

Record host := Host {
  (** [requests.get(url, timeout=60)], [raise_for_status()], [.content] *)
  requests_get : string → exn + list Byte.byte;
  (** [os.sep] and [platform.system()] *)
  os_sep : string;
  platform_system : string;
  (** [st_size] the host reports for a directory *)
  dir_st_size : nat;
  (** the fresh name [tempfile.TemporaryDirectory()] picks *)
  mkdtemp : gmap string node → string;
  (** [pikepdf.open(path)] and [pdf.save(path, compress_streams=True)] *)
  pikepdf_open : string → gmap string node → exn + pdf;
  pikepdf_save : pdf → string → gmap string node → (exn + unit) * gmap string node;
  (** a child process: how it alters the file system, and its exit status
      (or the [OSError] of a failed spawn) *)
  subprocess_run : list string → gmap string node → (exn + Z) * gmap string node;
  (** [str(e)] of a [CalledProcessError] *)
  called_process_error_str : list string → Z → string;
  (** [cloudinary.uploader.upload(path, ...)], the response dictionary *)
  cu_upload : string → gmap string node → exn + gmap string string;
  (** module-level binaries resolved at import *)
  GS_EXEC : string;
  OCR_EXEC : option string;
  (** [f"{x:.1f}"] *)
  format_1f : float → string;
  (** PyMuPDF: [fitz.open(stream=..., filetype="pdf")] and [doc.save(buffer)] *)
  fitz_open : list Byte.byte → exn + list page;
  fitz_save : list page → exn + list Byte.byte;
  (** [cloudinary.uploader.upload(bytes, ..., public_id=...)] *)
  cloudinary_upload : list Byte.byte → string → exn + gmap string string;
}.

(** ** File system *)

Definition os_path_exists (path : string) (f : gmap string node) : bool :=
  bool_decide (is_Some (f !! path)).

(** [os.path.getsize]; raises when the path is missing. *)
Definition os_path_getsize (dir_size : nat) (path : string) (f : gmap string node)
    : exn + nat :=
  match f !! path with
  | Some (File data) => inr (length data)
  | Some Dir => inr dir_size
  | None => inl (Exn FileNotFoundError
                   ("[Errno 2] No such file or directory: '" +:+ path +:+ "'"))
  end.

(** Whether [path] lies below the directory [dir]. *)
Definition inside (sep dir path : string) : bool :=
  String.prefix (dir +:+ sep) path.

(** Recursive removal of [dir] with everything below it. *)
Definition rmtree (sep dir : string) (f : gmap string node) : gmap string node :=
  filter (λ kv, kv.1 ≠ dir ∧ inside sep dir kv.1 = false) f.


(** [str.replace(old, new)] for one-character [old] and [new]. *)
Fixpoint replace_char (old new : ascii) (s : string) : string :=
  match s with
  | EmptyString => EmptyString
  | String c rest =>
      String (if Ascii.eqb c old then new else c) (replace_char old new rest)
  end.

Section Worker.

Variable H : host.

Definition os_path_join (dir name : string) : string :=
  dir +:+ os_sep H +:+ name.

(** [worker/pdf/compress.py], [_safe_path]; character 092 is the backslash. *)
Definition _safe_path (path : string) : string :=
  if String.eqb (platform_system H) "Windows"
  then replace_char "092"%char "/"%char path
  else path.

(** [worker/pdf/compress.py], [_validate_file]. *)
Definition _validate_file (path step_name : string) : py nat :=
  pexists ← gets (λ w, os_path_exists path (fs w));
  if negb pexists then
    raise (Exn FileNotFoundError ("[" +:+ step_name +:+ "] File not found: " +:+ path))
  else
    r ← gets (λ w, os_path_getsize (dir_st_size H) path (fs w));
    size ← lift r;
    if Nat.eqb size 0 then
      raise (Exn RuntimeError
               ("[" +:+ step_name +:+ "] Generated file is 0 bytes: " +:+ path))
    else mret size.

(** [with tempfile.TemporaryDirectory() as tmp: body]. The directory is
    created empty and removed with its contents when the block is left,
    whether by falling through or by an exception. *)
Definition with_TemporaryDirectory {A} (body : string → py A) : py A :=
  λ w,
    let tmp := mkdtemp H (fs w) in
    let w1 := log_call (mkdtemp_call tmp) (set_fs (<[tmp := Dir]> (fs w)) w) in
    let '(r, w2) := body tmp w1 in
    (r, log_call (cleanup_call tmp) (set_fs (rmtree (os_sep H) tmp (fs w2)) w2)).

(** [with open(path, "wb") as f: f.write(data)] *)
Definition open_wb_write (path : string) (data : list Byte.byte) : py unit :=
  modify (λ w, log_call (open_wb_call path) (set_fs (<[path := File data]> (fs w)) w)).

Definition do_requests_get (url : string) : py (list Byte.byte) :=
  modify (log_call (requests_get_call url));;
  lift (requests_get H url).

Definition do_pikepdf_open (path : string) : py pdf :=
  modify (log_call (pikepdf_open_call path));;
  r ← gets (λ w, pikepdf_open H path (fs w));
  lift r.

Definition do_pikepdf_save (doc : pdf) (path : string) : py unit :=
  λ w,
    let '(r, f) := pikepdf_save H doc path (fs w) in
    lift r (log_call (pikepdf_save_call path) (set_fs f w)).

(** [subprocess.run(cmd, check=True)] *)
Definition do_subprocess_run_check (cmd : list string) : py unit :=
  λ w,
    let '(r, f) := subprocess_run H cmd (fs w) in
    let w' := log_call (subprocess_run_call cmd) (set_fs f w) in
    match r with
    | inl e => (Raise e, w')
    | inr returncode =>
        if Z.eqb returncode 0 then (Return tt, w')
        else (Raise (Exn CalledProcessError (called_process_error_str H cmd returncode)), w')
    end.

Definition do_cu_upload (path : string) : py (gmap string string) :=
  modify (log_call (cu_upload_call path));;
  r ← gets (λ w, cu_upload H path (fs w));
  lift r.

(** The truth value of [OCR_EXEC]: [None] and the empty string are false. *)
Definition truthy (o : option string) : option string :=
  match o with
  | Some s => if String.eqb s "" then None else Some s
  | None => None
  end.

(** The two [except] clauses of [compress_pdf_task]. *)
Definition compress_handler (task_id : string) (e : exn) : py unit :=
  match exn_cls e with
  | CalledProcessError =>
      _update task_id [("status", PStr "failed");
                       ("error", PStr ("Process Error: " +:+ exn_text e))]
  | _ =>
      _update task_id [("status", PStr "failed");
                       ("error", PStr ("Worker Error: " +:+ exn_text e))]
  end.

(** The body of the [with tempfile.TemporaryDirectory() as tmp] block; it
    yields the variables the code after the block still reads. *)
Definition staged (task_id : string) (cfg : level_cfg) (pdf_bytes : list Byte.byte)
    (orig_size : nat) (tmp : string) : py (string * nat * float) :=
  let src := os_path_join tmp "src.pdf" in
  let p1 := os_path_join tmp "p1.pdf" in
  let p2 := os_path_join tmp "p2.pdf" in
  let out := os_path_join tmp "out.pdf" in
  open_wb_write src pdf_bytes;;
  _validate_file src "Download";;
  _update task_id [("progress", PInt 30)];;
  (* 2. PRE-PROCESS *)
  doc ← do_pikepdf_open src;
  scanned ← lift (_is_scanned doc 3);
  do_pikepdf_save doc p1;;
  _validate_file p1 "Pikepdf";;
  (* 3. OCR (conditional) *)
  p2_in ← (match (if (scanned : bool) then truthy (OCR_EXEC H) else None) with
          | Some ocr_exec =>
              _update task_id [("progress", PInt 45)];;
              do_subprocess_run_check
                [ocr_exec; "--skip-text"; "--optimize"; "2";
                 "--jpeg-quality"; pretty (jpeg_q cfg);
                 "--image-dpi"; pretty (dpi cfg);
                 jbig2 cfg; "--output-type"; "pdf"; p1; p2];;
              _validate_file p2 "OCR";;
              mret p2
          | None => mret p1
          end : py string);
  (* 4. GHOSTSCRIPT COMPRESSION *)
  _update task_id [("progress", PInt 70)];;
  let gs_input := _safe_path p2_in in
  let gs_output := _safe_path out in
  let gs_exe := _safe_path (GS_EXEC H) in
  do_subprocess_run_check
    [gs_exe; "-sDEVICE=pdfwrite"; "-dCompatibilityLevel=1.4";
     "-dPDFSETTINGS=" +:+ gs cfg; "-dNOPAUSE"; "-dQUIET"; "-dBATCH";
     "-dSAFER"; "-sOutputFile=" +:+ gs_output; gs_input];;
  final_size ← _validate_file out "Ghostscript";
  q ← lift (py_truediv final_size orig_size);
  let ratio := PrimFloat.mul 100 (PrimFloat.sub 1 q) in
  _update task_id [("progress", PInt 85)];;
  (* 5. UPLOAD *)
  upload_res ← do_cu_upload out;
  cloud_url ← subscript upload_res "secure_url";
  mret (cloud_url, final_size, ratio).

(** The [try] block of [compress_pdf_task]. *)
Definition compress_body (task_id file_url compression_level : string) : py string :=
  let compression_level := resolve_level compression_level in
  cfg ← subscript LEVELS compression_level;
  _update task_id [("status", PStr "processing"); ("progress", PInt 5)];;
  (* 1. DOWNLOAD *)
  pdf_bytes ← do_requests_get file_url;
  let orig_size := length pdf_bytes in
  (if Nat.eqb orig_size 0
   then raise (Exn ValueError "Source file download is 0 bytes.")
   else mret tt);;
  _update task_id [("progress", PInt 20)];;
  '(cloud_url, final_size, ratio) ←
    with_TemporaryDirectory (staged task_id cfg pdf_bytes orig_size);
  (* DONE *)
  original_kb ← lift (py_truediv orig_size 1024);
  compressed_kb ← lift (py_truediv final_size 1024);
  _update task_id
    [("status", PStr "completed");
     ("progress", PInt 100);
     ("result_url", PStr cloud_url);
     ("original_kb", PStr (format_1f H original_kb));
     ("compressed_kb", PStr (format_1f H compressed_kb));
     ("saving", PStr (format_1f H ratio +:+ "%"))];;
  mret cloud_url.

(** [worker/pdf/compress.py], [compress_pdf_task]. *)
Definition compress_pdf_task (task_id file_url compression_level : string) : py string :=
  try_except_reraise
    (compress_body task_id file_url compression_level)
    (compress_handler task_id).

End Worker.

(** ** Page extraction *)

(** PyMuPDF, [doc.insert_pdf(docsrc, from_page=..., to_page=...)] appending
    to [doc]: page numbers are 0-based and inclusive, a negative [from_page]
    means the first page and a negative [to_page] the last one, both are
    clamped to the last page of [docsrc], and a range given backwards is
    copied back to front. *)
Definition insert_pdf (doc docsrc : list page) (from_page to_page : Z) : list page :=
  let srcCount := Z.of_nat (length docsrc) in
  let fp := Z.min (Z.max from_page 0) (srcCount - 1) in
  let tp := Z.min (if (to_page <? 0)%Z then srcCount - 1 else to_page) (srcCount - 1) in
  if (fp <=? tp)%Z
  then doc ++ take (Z.to_nat (tp - fp + 1)) (drop (Z.to_nat fp) docsrc)
  else doc ++ reverse (take (Z.to_nat (fp - tp + 1)) (drop (Z.to_nat tp) docsrc)).

(** The guard of [extract_pdf_task]:
    [start_page < 1 or end_page > total_pages or start_page > end_page]. *)
Definition invalid_page_range (start_page end_page total_pages : Z) : bool :=
  (start_page <? 1)%Z || (end_page >? total_pages)%Z || (start_page >? end_page)%Z.

Section Extract.

Variable H : host.

Definition do_fitz_open (content : list Byte.byte) : py (list page) :=
  modify (log_call fitz_open_call);;
  lift (fitz_open H content).

Definition do_insert_pdf (doc docsrc : list page) (from_page to_page : Z)
    : py (list page) :=
  modify (log_call (fitz_insert_pdf_call from_page to_page));;
  mret (insert_pdf doc docsrc from_page to_page).

Definition do_fitz_save (doc : list page) : py (list Byte.byte) :=
  modify (log_call (fitz_save_call doc));;
  lift (fitz_save H doc).

Definition do_cloudinary_upload (data : list Byte.byte) (public_id : string)
    : py (gmap string string) :=
  modify (log_call (cloudinary_upload_call public_id));;
  lift (cloudinary_upload H data public_id).

(** The [try] block of [extract_pdf_task]. *)
Definition extract_body (task_id file_url : string) (start_page end_page : Z)
    : py string :=
  update_state task_id [("status", PStr "processing"); ("progress", PInt 5)];;
  content ← do_requests_get H file_url;
  update_state task_id [("progress", PInt 15)];;
  original_pdf ← do_fitz_open content;
  let total_pages := Z.of_nat (length original_pdf) in
  (if invalid_page_range start_page end_page total_pages
   then raise (Exn ValueError "Invalid page range")
   else mret tt);;
  update_state task_id [("progress", PInt 30)];;
  extracted_pdf ← do_insert_pdf [] original_pdf (start_page - 1) (end_page - 1);
  update_state task_id [("progress", PInt 60)];;
  extracted_buffer ← do_fitz_save extracted_pdf;
  let extracted_size := length extracted_buffer in
  (if Nat.eqb extracted_size 0
   then raise (Exn RuntimeError "Extracted PDF is empty")
   else mret tt);;
  update_state task_id [("progress", PInt 80)];;
  extracted_upload ← do_cloudinary_upload extracted_buffer (task_id +:+ ".pdf");
  result_url ← subscript extracted_upload "secure_url";
  update_state task_id
    [("status", PStr "completed");
     ("progress", PStr "100");
     ("result_url", PStr result_url)];;
  mret result_url.

(** [worker/pdf/extract.py], [extract_pdf_task]. *)
Definition extract_pdf_task (task_id file_url : string) (start_page end_page : Z)
    : py string :=
  try_except_reraise
    (extract_body task_id file_url start_page end_page)
    (λ e, update_state task_id
            [("status", PStr "failed"); ("error", PStr (exn_text e))]).

End Extract.

(** ** Locating the binaries *)

(** [worker/pdf/compress.py], [_find_executable(unix_name, windows_alt)]:
    [os_name] is [os.name] and [which] is [shutil.which]. A path counts when
    it is neither [None] nor empty. *)
Definition _find_executable (os_name : string) (which : string → option string)
    (unix_name : string) (windows_alt : option string) : exn + string :=
  match (if String.eqb os_name "nt"
         then match truthy windows_alt with
              | Some alt => truthy (which alt)
              | None => None
              end
         else None) with
  | Some path => inr path
  | None =>
      match truthy (which unix_name) with
      | Some path => inr path
      | None => inl (Exn FileNotFoundError ("Executable not found: " +:+ unix_name))
      end
  end.

(** The two module-level assignments [GS_EXEC = _find_executable("gs",
    windows_alt="gswin64c")] and [OCR_EXEC = shutil.which("ocrmypdf")]; an
    exception here is an import failure of the module. *)
Definition resolve_binaries (os_name : string) (which : string → option string)
    : exn + (string * option string) :=
  match _find_executable os_name which "gs" (Some "gswin64c") with
  | inl e => inl e
  | inr gs_exec => inr (gs_exec, which "ocrmypdf")
  end.

(** ** Image conversion *)

(** [str.lower()] and [str.upper()] on the ASCII letters; the format names
    the task compares against are ASCII. *)
Definition ascii_lower (c : ascii) : ascii :=
  let n := nat_of_ascii c in
  if (65 <=? n) && (n <=? 90) then ascii_of_nat (n + 32) else c.

Definition ascii_upper (c : ascii) : ascii :=
  let n := nat_of_ascii c in
  if (97 <=? n) && (n <=? 122) then ascii_of_nat (n - 32) else c.

Fixpoint str_map (f : ascii → ascii) (s : string) : string :=
  match s with
  | EmptyString => EmptyString
  | String c rest => String (f c) (str_map f rest)
  end.

Definition str_lower (s : string) : string := str_map ascii_lower s.
Definition str_upper (s : string) : string := str_map ascii_upper s.

(** [worker/image/convert.py], [PILLOW_FORMATS]. *)
Definition PILLOW_FORMATS : gmap string string :=
  <["jpg" := "JPEG"]> (<["jpeg" := "JPEG"]> (<["png" := "PNG"]>
  (<["webp" := "WEBP"]> (<["bmp" := "BMP"]> (<["tiff" := "TIFF"]>
  (<["tif" := "TIFF"]> (<["gif" := "GIF"]> (<["ico" := "ICO"]>
  (<["pdf" := "PDF"]> ∅))))))))).

(** A Pillow image: its mode and its pixel data. *)
Record image := Image { mode : string; pixels : list Byte.byte }.

(** A value in [save_kwargs]. *)
Inductive pil_arg :=
  | ArgInt (n : Z)
  | ArgBool (b : bool).

(** Calls the conversion task makes to its collaborators, in order. *)
Inductive image_call :=
  | image_get_call (url : string)
  | image_open_call (content : list Byte.byte)
  | image_convert_call (im : image) (to_mode : string)
  | image_save_call (im : image) (format : string) (save_kwargs : list (string * pil_arg))
  | image_upload_call (data : list Byte.byte) (format resource_type : string).

(** The collaborators of the conversion task. *)
Record imaging := Imaging {
  (** [requests.get(url)], [raise_for_status()], [.content] *)
  image_get : string → exn + list Byte.byte;
  (** [Image.open(io.BytesIO(content))] *)
  image_open : list Byte.byte → exn + image;
  (** the pixel data [image.convert(mode)] computes *)
  image_convert : image → string → list Byte.byte;
  (** [image.save(buffer, format=..., **save_kwargs)], the buffer's bytes *)
  image_save : image → string → list (string * pil_arg) → exn + list Byte.byte;
  (** [cloudinary.uploader.upload(data, folder=..., format=..., resource_type=...)] *)
  image_upload : list Byte.byte → string → string → exn + gmap string string;
}.

(** Statements of the conversion task: the world together with the log of
    its own calls. *)
Definition ipy (A : Type) : Type :=
  world * list image_call → outcome A * (world * list image_call).

Definition ipy_ret {A} (a : A) : ipy A := λ s, (Return a, s).

Definition ipy_bind {A B} (f : A → ipy B) (m : ipy A) : ipy B :=
  λ s, match m s with
       | (Return a, s') => f a s'
       | (Raise e, s') => (Raise e, s')
       end.

Global Instance ipy_mret : MRet ipy := @ipy_ret.
Global Instance ipy_mbind : MBind ipy := @ipy_bind.

(** A statement that only touches the world. *)
Definition in_world {A} (m : py A) : ipy A :=
  λ s, let '(r, w') := m s.1 in (r, (w', s.2)).

(** A call to a collaborator: logged, then answered. *)
Definition collaborator {A} (c : image_call) (r : exn + A) : ipy A :=
  λ s, match r with
       | inr a => (Return a, (s.1, s.2 ++ [c]))
       | inl e => (Raise e, (s.1, s.2 ++ [c]))
       end.

Definition ipy_try_except_reraise {A} (body : ipy A) (handler : exn → ipy unit) : ipy A :=
  λ s, match body s with
       | (Return a, s') => (Return a, s')
       | (Raise e, s') =>
           match handler e s' with
           | (Return _, s'') => (Raise e, s'')
           | (Raise e', s'') => (Raise e', s'')
           end
       end.

Section Convert.

Variable C : imaging.

(** [image.convert(to_mode)] *)
Definition do_image_convert (im : image) (to_mode : string) : ipy image :=
  collaborator (image_convert_call im to_mode)
    (inr (Image to_mode (image_convert C im to_mode))).

(** The [if]/[elif] chain on the target format and the image mode. *)
Definition convert_mode (target_format : string) (im : image) : ipy image :=
  if String.eqb (str_upper target_format) "JPEG"
     && (String.eqb (mode im) "RGBA" || String.eqb (mode im) "P")
  then do_image_convert im "RGB"
  else if String.eqb (str_upper target_format) "PNG"
          && negb (String.eqb (mode im) "RGBA")
  then do_image_convert im "RGBA"
  else if String.eqb (str_upper target_format) "PDF"
          && negb (String.eqb (mode im) "RGB")
  then do_image_convert im "RGB"
  else mret im.

(** The [try] block of [convert_image_task]. *)
Definition convert_body (task_id file_url target_format : string) : ipy string :=
  in_world (update_state task_id [("status", PStr "processing"); ("progress", PInt 10)]);;
  content ← collaborator (image_get_call file_url) (image_get C file_url);
  in_world (update_state task_id [("progress", PInt 30)]);;
  im ← collaborator (image_open_call content) (image_open C content);
  im ← convert_mode target_format im;
  in_world (update_state task_id [("progress", PInt 60)]);;
  match truthy (PILLOW_FORMATS !! str_lower target_format) with
  | None =>
      (λ s, (Raise (Exn ValueError ("Unsupported format: " +:+ target_format)), s)) : ipy string
  | Some normalized_format =>
      let save_kwargs :=
        if String.eqb normalized_format "JPEG"
        then [("quality", ArgInt 95); ("optimize", ArgBool true)]
        else [] in
      converted ← collaborator (image_save_call im normalized_format save_kwargs)
                    (image_save C im normalized_format save_kwargs);
      in_world (update_state task_id [("progress", PInt 80)]);;
      let format := str_lower target_format in
      let resource_type :=
        if String.eqb (str_lower target_format) "pdf" then "raw" else "image" in
      converted_upload ← collaborator (image_upload_call converted format resource_type)
                           (image_upload C converted format resource_type);
      result_url ← in_world (subscript converted_upload "secure_url");
      in_world (update_state task_id
                  [("status", PStr "completed");
                   ("progress", PStr "100");
                   ("result_url", PStr result_url)]);;
      mret result_url
  end.

(** [worker/image/convert.py], [convert_image_task]. *)
Definition convert_image_task (task_id file_url target_format : string) : ipy string :=
  ipy_try_except_reraise
    (convert_body task_id file_url target_format)
    (λ e, in_world (update_state task_id
                      [("status", PStr "failed"); ("error", PStr (exn_text e))])).

End Convert.

(** ** Notions used in the statements *)

(** Every member of a published message is a JSON string. *)
Definition all_members_strings (message : jobject) : Prop :=
  Forall (λ kv, is_jstring kv.2 = true) message.

(** The [progress] members of a run of messages. *)
Definition progress_members (msgs : list (string * jobject)) : list jvalue :=
  omap (λ cm, member "progress" cm.2) msgs.

(** The value a mapping gives to [k], the last binding winning. *)
Definition mapped (k : string) (mapping : list (string * string)) : option string :=
  foldl (λ acc kv, if String.eqb k kv.1 then Some kv.2 else acc) None mapping.

(** The profile table as the specification words it: the three names pick
    their own parameters, any other name picks those of "medium". *)
Definition profile_of_name (name : string) : level_cfg :=
  if decide (name = "low") then LevelCfg 300 85 "--jbig2-lossless" "/printer"
  else if decide (name = "high") then LevelCfg 96 45 "--jbig2-lossy" "/screen"
  else LevelCfg 150 65 "--jbig2-lossless" "/ebook".

(** A page that looks scanned: some embedded image, no font resource. *)
Definition scanned_like (pg : page) : Prop :=
  images pg ≠ [] ∧ "/Font" ∉ resources pg.

Global Instance scanned_like_dec pg : Decision (scanned_like pg).
Proof. unfold scanned_like. apply _. Defined.

(** The Ghostscript command line of [compress_pdf_task]. *)
Definition gs_command (H : host) (cfg : level_cfg) (out input : string) : list string :=
  [_safe_path H (GS_EXEC H); "-sDEVICE=pdfwrite"; "-dCompatibilityLevel=1.4";
   "-dPDFSETTINGS=" +:+ gs cfg; "-dNOPAUSE"; "-dQUIET"; "-dBATCH"; "-dSAFER";
   "-sOutputFile=" +:+ _safe_path H out; _safe_path H input].

(** A logged call that is not a child process, or is the process [cmd]. *)
Definition only_process (cmd : list string) (c : call) : Prop :=
  match c with
  | subprocess_run_call cmd' => cmd' = cmd
  | _ => True
  end.

(** What is left of [extract_pdf_task] once the pages are copied: the
    outcome of serialising the extracted document and uploading it. *)
Definition extract_rest (H : host) (task_id : string) (extracted : list page)
    : outcome string :=
  match fitz_save H extracted with
  | inl e => Raise e
  | inr buffer =>
      if Nat.eqb (length buffer) 0
      then Raise (Exn RuntimeError "Extracted PDF is empty")
      else
        match cloudinary_upload H buffer (task_id +:+ ".pdf") with
        | inl e => Raise e
        | inr response =>
            match response !! "secure_url" with
            | Some result_url => Return result_url
            | None => Raise (Exn KeyError "'secure_url'")
            end
        end
  end.

(** ** More notions used in the statements *)

(** The OCR command line of [compress_pdf_task]. *)
Definition ocr_command (ocr_exec : string) (cfg : level_cfg) (p1 p2 : string)
    : list string :=
  [ocr_exec; "--skip-text"; "--optimize"; "2";
   "--jpeg-quality"; pretty (jpeg_q cfg); "--image-dpi"; pretty (dpi cfg);
   jbig2 cfg; "--output-type"; "pdf"; p1; p2].

(** The command lines of the child processes among logged calls. *)
Definition processes (cs : list call) : list (list string) :=
  omap (λ c, match c with subprocess_run_call cmd => Some cmd | _ => None end) cs.

(** Whether a logged call is an upload. *)
Definition is_upload (c : call) : bool :=
  match c with
  | cu_upload_call _ | cloudinary_upload_call _ => true
  | _ => false
  end.

(** ** A concrete host *)

(** A POSIX host on which every tool succeeds: the download answers with
    [download], pikepdf reads a two-page scan, the child processes and the
    PDF writer leave a small file at the path they are asked to produce. *)
Definition scanned_page : page := Page ["/Im0"] ∅.
Definition text_page : page := Page [] {["/Font"]}.

Definition sample_payload : list Byte.byte :=
  [Byte.x25; Byte.x50; Byte.x44; Byte.x46].

Definition sample_host (download : exn + list Byte.byte) (ocr : option string) : host :=
  {| requests_get := λ _, download;
     os_sep := "/";
     platform_system := "Linux";
     dir_st_size := 64;
     mkdtemp := λ _, "/tmp/tmpw0rk";
     pikepdf_open := λ _ _, inr (Pdf [scanned_page; scanned_page]);
     pikepdf_save := λ _ path f, (inr (), <[path := File sample_payload]> f);
     subprocess_run := λ _ f,
       (inr 0%Z,
        <["/tmp/tmpw0rk/out.pdf" := File [Byte.x25; Byte.x50]]>
          (<["/tmp/tmpw0rk/p2.pdf" := File sample_payload]> f));
     called_process_error_str := λ _ code,
       "Command returned non-zero exit status " +:+ pretty code +:+ ".";
     cu_upload := λ _ _, inr {["secure_url" := "https://res.example/out.pdf"]};
     GS_EXEC := "/usr/bin/gs";
     OCR_EXEC := ocr;
     format_1f := λ _, "0.0";
     fitz_open := λ _, inr [scanned_page; text_page; scanned_page];
     fitz_save := λ _, inr sample_payload;
     cloudinary_upload := λ _ _, inr {["secure_url" := "https://res.example/job.pdf"]} |}.

Definition empty_world : world := World ∅ [] ∅ [].

Definition connection_error : exn :=
  Exn (OtherException "ConnectionError") "connection refused".

(** ** More concrete hosts *)

(** The one-character string holding a backslash. *)
Definition backslash : string := String "092"%char EmptyString.

(** A Windows host: as the sample host, with the Windows path separator. *)
Definition windows_host : host :=
  {| requests_get := λ _, inr sample_payload;
     os_sep := backslash;
     platform_system := "Windows";
     dir_st_size := 0;
     mkdtemp := λ _, "C:" +:+ backslash +:+ "Temp" +:+ backslash +:+ "tmpw0rk";
     pikepdf_open := λ _ _, inr (Pdf [text_page]);
     pikepdf_save := λ _ path f, (inr (), <[path := File sample_payload]> f);
     subprocess_run := λ _ f, (inr 1%Z, f);
     called_process_error_str := λ _ code,
       "Command returned non-zero exit status " +:+ pretty code +:+ ".";
     cu_upload := λ _ _, inr ∅;
     GS_EXEC := "C:" +:+ backslash +:+ "gs" +:+ backslash +:+ "gswin64c.exe";
     OCR_EXEC := None;
     format_1f := λ _, "0.0";
     fitz_open := λ _, inr [text_page];
     fitz_save := λ _, inr [];
     cloudinary_upload := λ _ _, inr ∅ |}.

(** [shutil.which] on a machine where only the Windows Ghostscript and a
    Unix-style [gs] shim are installed. *)
Definition sample_which (name : string) : option string :=
  if String.eqb name "gswin64c" then Some "C:/gs/bin/gswin64c.exe"
  else if String.eqb name "gs" then Some "C:/shims/gs.cmd"
  else None.

(** The modes Pillow's JPEG writer can encode (the keys of [RAWMODE] in
    [JpegImagePlugin]). *)
Definition JPEG_MODES : list string := ["1"; "L"; "RGB"; "RGBX"; "CMYK"; "YCbCr"].

(** Imaging collaborators for the examples: every download opens as the
    image [im], and the upload answers with a URL ending in the format. The
    JPEG writer refuses, as Pillow's does, an image whose mode it cannot
    encode; the examples hand the other writers only modes they take. *)
Definition sample_imaging (im : image) : imaging :=
  {| image_get := λ _, inr sample_payload;
     image_open := λ _, inr im;
     image_convert := λ im _, pixels im;
     image_save := λ im format _,
       if String.eqb format "JPEG" && negb (bool_decide (mode im ∈ JPEG_MODES))
       then inl (Exn (OtherException "OSError")
                   ("cannot write mode " +:+ mode im +:+ " as JPEG"))
       else inr sample_payload;
     image_upload := λ _ format _,
       inr {["secure_url" := "https://res.example/converted." +:+ format]} |}.

Definition rgba_image : image := Image "RGBA" [Byte.x00; Byte.xff].

(** ** Symbolic execution *)

(** Keep the world a flat record and the opaque parts of a run folded while
    a task is executed step by step. *)
Global Arguments set_redis _ _ _ /.
Global Arguments set_fs _ _ /.
Global Arguments log_call _ _ /.
Global Arguments publish _ _ _ /.
Global Arguments job_field _ _ _ /.
Global Arguments hset : simpl never.
Global Arguments hget : simpl never.
Global Arguments String.append : simpl never.
Global Arguments pretty : simpl never.
Global Arguments float_of_nat : simpl never.
Global Arguments _safe_path : simpl never.
Global Arguments os_path_join : simpl never.
Global Arguments os_path_exists : simpl never.
Global Arguments os_path_getsize : simpl never.
Global Arguments rmtree : simpl never.
Global Arguments _is_scanned : simpl never.

(** Unfold the statements of a task down to functions of the world. *)
Ltac unfold_task :=
  unfold compress_pdf_task, extract_pdf_task, try_except_reraise, compress_body,
    extract_body, staged,
    with_TemporaryDirectory, compress_handler, _validate_file, open_wb_write,
    do_requests_get, do_pikepdf_open, do_pikepdf_save, do_subprocess_run_check,
    do_cu_upload, do_fitz_open, do_insert_pdf, do_fitz_save, do_cloudinary_upload,
    subscript, _update, update_state, REDIS_hset, REDIS_publish, lift, raise,
    modify, gets,
    mbind, mret, py_mbind, py_mret, py_bind, py_ret.

(** The term whose value the next statement is waiting for: the innermost
    scrutinee in head position. *)
Ltac head_of t :=
  lazymatch t with
  | ?f _ => head_of f
  | _ => t
  end.

Ltac blocker t :=
  let h := head_of t in
  lazymatch h with
  | match ?x with _ => _ end => blocker x
  | _ => t
  end.

(** One step: reduce, then split on the answer the run is waiting for. *)
Ltac step :=
  cbn;
  lazymatch goal with
  | |- ?G =>
      let b := blocker G in
      lazymatch b with
      | G => fail
      | _ => destruct b eqn:?
      end
  end.

(** Unfold the statements of the conversion task. *)
Ltac unfold_convert :=
  unfold convert_image_task, ipy_try_except_reraise, convert_body, convert_mode,
    do_image_convert, collaborator, in_world, subscript, update_state,
    REDIS_hset, REDIS_publish,
    raise, modify, mbind, mret, ipy_mbind, ipy_mret, ipy_bind, ipy_ret, py_ret.

(** Turn the boolean tests a run went through into propositions. *)
Ltac tests_to_props :=
  repeat match goal with
  | Hb : _ && _ = true |- _ => apply andb_true_iff in Hb as [? ?]
  | Hb : _ && _ = false |- _ => apply andb_false_iff in Hb as [? | ?]
  | Hb : _ || _ = true |- _ => apply orb_true_iff in Hb as [? | ?]
  | Hb : _ || _ = false |- _ => apply orb_false_iff in Hb as [? ?]
  | Hb : negb _ = true |- _ => apply negb_true_iff in Hb
  | Hb : negb _ = false |- _ => apply negb_false_iff in Hb
  | Hb : String.eqb _ _ = true |- _ => apply String.eqb_eq in Hb
  | Hb : String.eqb _ _ = false |- _ => apply String.eqb_neq in Hb
  end.

(** * Theorems *)

(** ** State reporter *)

Lemma kwarg_None k (fields : kwargs) : k ∉ fields.*1 → kwarg k fields = None.
Proof.
  induction fields as [|[k' v] rest IH]; simpl; [done|].
  intros Hnotin. destruct (String.eqb_spec k k') as [->|Hne].
  - exfalso. apply Hnotin. left.
  - apply IH. intros Hin. apply Hnotin. by right.
Qed.

Lemma hset_fields_lookup (fields : kwargs) (r : gmap string string) k :
  NoDup fields.*1 →
  foldl (λ r kv, <[kv.1 := kv.2]> r) r (str_mapping fields) !! k =
    match kwarg k fields with
    | Some v => Some (py_str v)
    | None => r !! k
    end.
Proof.
  revert r. induction fields as [|[k' v] rest IH]; intros r Hnd; simpl; [done|].
  apply NoDup_cons in Hnd as [Hnotin Hnd]. rewrite IH by done.
  destruct (String.eqb_spec k k') as [->|Hne].
  - rewrite kwarg_None by done. by rewrite lookup_insert_eq.
  - destruct (kwarg k rest); [done|]. by rewrite lookup_insert_ne.
Qed.

Lemma member_json_dumps k (fields : kwargs) :
  member k (json_dumps fields) = to_json <$> kwarg k fields.
Proof.
  induction fields as [|[k' v] rest IH]; simpl; [done|].
  by destruct (String.eqb k k').
Qed.

Lemma hget_hset_fields task_id (fields : kwargs) h k :
  NoDup fields.*1 →
  hget task_id k (hset task_id (str_mapping fields) h) =
    match kwarg k fields with
    | Some v => Some (py_str v)
    | None => hget task_id k h
    end.
Proof.
  intros Hnd. unfold hget, hset. rewrite lookup_insert_eq. simpl.
  by apply hset_fields_lookup.
Qed.

(** C9, counterexample: [update_state(task_id, progress=15)], as called by
    [extract_pdf_task], publishes an object whose [progress] member is the
    JSON number 15, not a JSON string. *)
Lemma update_state_publishes_number :
  let w' := (update_state "job-1" [("progress", PInt 15)] empty_world).2 in
  redis_stream w' = [("progress:job-1", [("progress", JNumber 15)])] ∧
  ¬ (∀ channel message, (channel, message) ∈ redis_stream w' →
       all_members_strings message).
Proof.
  simpl. split; [reflexivity|].
  intros Hall. specialize (Hall _ _ (list_elem_of_here _ _)).
  apply Forall_cons in Hall as [Hhd _]. discriminate Hhd.
Qed.

(** C9, as amended: [_update] and [update_state] act alike. A report with
    no field raises redis-py's [DataError] at [hset], before anything is
    written or published. A report with fields returns; each reported field
    is stored in the job's record as [str(v)] and the other fields of the
    record are left alone; exactly one message is published, on the job's
    channel, and it carries each field with its own JSON type, so that a
    member is a JSON string exactly when the value passed was a [str]. *)
Theorem update_state_serialization task_id (fields : kwargs) (w : world) :
  NoDup fields.*1 →
  let w' := (update_state task_id fields w).2 in
  update_state task_id fields w = _update task_id fields w ∧
  match fields with
  | [] => update_state task_id fields w = (Raise DataError, w)
  | _ :: _ =>
      (update_state task_id fields w).1 = Return tt ∧
      (∀ k, job_field w' task_id k =
              match kwarg k fields with
              | Some v => Some (py_str v)
              | None => job_field w task_id k
              end) ∧
      (∃ message,
          redis_stream w' = (redis_stream w ++ [("progress:" +:+ task_id, message)])%list ∧
          ∀ k, member k message = to_json <$> kwarg k fields)
  end ∧
  (∀ k v, kwarg k fields = Some v →
          (is_jstring (to_json v) = true ↔ ∃ s, v = PStr s)).
Proof.
  intros Hnd w'. split; [reflexivity|]. split.
  - destruct fields as [|kv rest]; [reflexivity|].
    set (fields := kv :: rest) in *.
    assert (Hrun : update_state task_id fields w =
              (Return tt,
               set_redis (hset task_id (str_mapping fields) (redis_hashes w))
                 (publish ("progress:" +:+ task_id) (json_dumps fields) (redis_stream w))
                 w)).
    { destruct w. reflexivity. }
    subst w'. rewrite Hrun. split; [reflexivity|]. split.
    + intros k. exact (hget_hset_fields task_id fields (redis_hashes w) k Hnd).
    + exists (json_dumps fields). split; [done|]. intros k. apply member_json_dumps.
  - intros k v _. destruct v as [s|n]; simpl; split; eauto.
    + discriminate.
    + intros [s Hs]. discriminate Hs.
Qed.

Lemma update_state_serialization_witness :
  let w' := (update_state "job-1" [("status", PStr "processing"); ("progress", PInt 5)]
               empty_world).2 in
  job_field w' "job-1" "progress" = Some "5" ∧
  job_field w' "job-1" "status" = Some "processing".
Proof.
  pose proof (update_state_serialization "job-1"
    [("status", PStr "processing"); ("progress", PInt 5)] empty_world) as Hs.
  assert (Hnd : NoDup [("status", PStr "processing"); ("progress", PInt 5)].*1).
  { apply (bool_decide_unpack _). reflexivity. }
  destruct (Hs Hnd) as (_ & (_ & Hrec & _) & _).
  split; [exact (Hrec "progress") | exact (Hrec "status")].
Defined.

(** ** Artifact validation *)

(** C3: [_validate_file] raises [FileNotFoundError] (the specification's
    MissingArtifact) when nothing exists at the path, raises [RuntimeError]
    (EmptyArtifact) when what exists there has size zero, and returns the
    size otherwise; the size of a file is the number of its bytes. The world
    is left as it was. *)
Theorem validate_file_spec (H : host) (path step_name : string) (w : world) :
  _validate_file H path step_name w =
    match fs w !! path with
    | None =>
        (Raise (Exn FileNotFoundError
                  ("[" +:+ step_name +:+ "] File not found: " +:+ path)), w)
    | Some nd =>
        let size := match nd with File data => length data | Dir => dir_st_size H end in
        if Nat.eqb size 0
        then (Raise (Exn RuntimeError
                       ("[" +:+ step_name +:+ "] Generated file is 0 bytes: " +:+ path)), w)
        else (Return size, w)
    end.
Proof.
  unfold _validate_file, mbind, py_mbind, py_bind, gets, os_path_exists,
    os_path_getsize.
  destruct (fs w !! path) as [nd|] eqn:Hnd.
  - rewrite bool_decide_eq_true_2 by eauto. simpl. rewrite Hnd.
    destruct nd as [data|]; simpl.
    + destruct (Nat.eqb (length data) 0); reflexivity.
    + destruct (Nat.eqb (dir_st_size H) 0); reflexivity.
  - rewrite bool_decide_eq_false_2 by (intros [? [=]]). reflexivity.
Qed.

(** ** Quality profiles *)

Lemma LEVELS_lookup (name : string) :
  LEVELS !! name =
    if decide (name = "low") then Some (profile_of_name "low")
    else if decide (name = "medium") then Some (profile_of_name "medium")
    else if decide (name = "high") then Some (profile_of_name "high")
    else None.
Proof.
  unfold LEVELS.
  destruct (decide (name = "low")) as [->|Hl]; [by rewrite lookup_insert_eq|].
  rewrite lookup_insert_ne by done.
  destruct (decide (name = "medium")) as [->|Hm]; [by rewrite lookup_insert_eq|].
  rewrite lookup_insert_ne by done.
  destruct (decide (name = "high")) as [->|Hh]; [by rewrite lookup_insert_eq|].
  by rewrite lookup_insert_ne.
Qed.

Lemma LEVELS_resolved (name : string) :
  LEVELS !! resolve_level name = Some (profile_of_name name).
Proof.
  unfold resolve_level. case_bool_decide as Hin.
  - apply elem_of_dom in Hin as [cfg Hcfg]. rewrite Hcfg.
    rewrite LEVELS_lookup in Hcfg. unfold profile_of_name.
    repeat case_decide; simplify_eq; done.
  - rewrite LEVELS_lookup. simpl. unfold profile_of_name.
    repeat case_decide; simplify_eq; try done.
    all: exfalso; apply Hin; apply elem_of_dom; rewrite LEVELS_lookup; simpl; eauto.
Qed.

(** C8: the first two statements of [compress_pdf_task] never raise; they
    yield the parameters of "low", "medium" or "high" for these three names
    and the parameters of "medium" for every other name, such as "ultra" or
    the differently cased "Low". *)
Theorem quality_profile_fallback :
  (∀ name w, subscript LEVELS (resolve_level name) w = (Return (profile_of_name name), w)) ∧
  profile_of_name "low" = LevelCfg 300 85 "--jbig2-lossless" "/printer" ∧
  profile_of_name "medium" = LevelCfg 150 65 "--jbig2-lossless" "/ebook" ∧
  profile_of_name "high" = LevelCfg 96 45 "--jbig2-lossy" "/screen" ∧
  (∀ name, name ∉ ["low"; "medium"; "high"] →
           resolve_level name = "medium" ∧
           profile_of_name name = profile_of_name "medium") ∧
  profile_of_name "ultra" = profile_of_name "medium" ∧
  profile_of_name "Low" = profile_of_name "medium".
Proof.
  split; [|repeat split].
  - intros name w. unfold subscript. by rewrite LEVELS_resolved.
  - unfold resolve_level. rewrite bool_decide_eq_false_2; [done|].
    intros [cfg Hcfg]%elem_of_dom. rewrite LEVELS_lookup in Hcfg.
    repeat case_decide; simplify_eq; set_solver.
  - unfold profile_of_name. repeat case_decide; simplify_eq; set_solver.
Qed.

(** ** Classifier *)

Lemma scanned_step_count (c : nat) (pg : page) :
  scanned_step c pg = if decide (scanned_like pg) then S c else c.
Proof.
  unfold scanned_step. destruct (decide (scanned_like pg)) as [[Hi Hf]|Hn].
  - destruct (images pg) as [|i rest]; [done|]. simpl.
    rewrite bool_decide_eq_false_2 by done. simpl. lia.
  - destruct (images pg) as [|i rest] eqn:Hi; simpl; [done|].
    case_bool_decide as Hf; simpl; [done|].
    exfalso. apply Hn. split; [by rewrite Hi | done].
Qed.

Lemma foldl_scanned_step (pgs : list page) (c : nat) :
  foldl scanned_step c pgs = c + length (filter scanned_like pgs).
Proof.
  revert c. induction pgs as [|pg rest IH]; intros c; simpl; [lia|].
  rewrite IH, scanned_step_count, filter_cons.
  destruct (decide (scanned_like pg)); simpl; lia.
Qed.

(** On at most three sampled pages the binary64 comparison agrees with the
    comparison of the exact fractions. *)
Lemma threshold_exact (c n : nat) :
  1 ≤ n ≤ 3 → c ≤ n →
  PrimFloat.leb 0.8%float (PrimFloat.div (float_of_nat c) (float_of_nat n)) =
    Qle_bool 0.8 (Z.of_nat c # Pos.of_nat n).
Proof.
  intros [Hn1 Hn3] Hc.
  destruct n as [|[|[|[|n]]]]; try lia;
    destruct c as [|[|[|[|c]]]]; try lia; vm_compute; reflexivity.
Qed.

(** C1: [_is_scanned(pdf)] always returns; it answers [True] exactly when
    some page is sampled and the scanned-like pages make up at least 0.8 of
    the sampled ones, the sampled pages being the first three, or all of
    them when there are fewer; a document without pages is not scanned. *)
Theorem is_scanned_spec (doc : pdf) :
  let sampled := take 3 (pages doc) in
  let k := length (filter scanned_like sampled) in
  ∃ b : bool,
    _is_scanned doc 3 = inr b ∧
    (b = true ↔
       sampled ≠ [] ∧ (0.8 <= Z.of_nat k # Pos.of_nat (length sampled))%Q) ∧
    (length (pages doc) < 3 → sampled = pages doc) ∧
    (3 ≤ length (pages doc) → length sampled = 3) ∧
    _is_scanned (Pdf []) 3 = inr false.
Proof.
  intros sampled k. unfold _is_scanned. fold sampled.
  assert (Hlen : length sampled ≤ 3) by (unfold sampled; rewrite length_take; lia).
  assert (Hk : k ≤ length sampled) by apply length_filter.
  assert (Htl : (length (pages doc) < 3 → sampled = pages doc) ∧
                (3 ≤ length (pages doc) → length sampled = 3)).
  { split; intros Hl; unfold sampled.
    - apply take_ge. lia.
    - rewrite length_take. lia. }
  destruct sampled as [|pg rest] eqn:Hs.
  - exists false. split; [done|]. split; [|by destruct Htl].
    split; [discriminate|]. by intros [? _].
  - rewrite foldl_scanned_step. fold k. unfold py_truediv.
    change (Nat.eqb (length (pg :: rest)) 0) with false. cbv iota.
    eexists. split; [reflexivity|]. split; [|by destruct Htl].
    rewrite threshold_exact by (simpl in *; lia).
    rewrite Qle_bool_iff. split; [by intros ?|by intros [_ ?]].
Qed.

(** The classifier on small documents: two scanned pages out of three
    sampled fall below the threshold, three out of three pass it, and pages
    past the third are not looked at. *)
Example is_scanned_two_of_three :
  _is_scanned (Pdf [scanned_page; text_page; scanned_page; scanned_page]) 3 = inr false.
Proof. vm_compute. reflexivity. Qed.

Example is_scanned_three_of_three :
  _is_scanned (Pdf [scanned_page; scanned_page; scanned_page; text_page]) 3 = inr true.
Proof. vm_compute. reflexivity. Qed.

Example is_scanned_one_of_two :
  _is_scanned (Pdf [text_page; scanned_page]) 3 = inr false.
Proof. vm_compute. reflexivity. Qed.

Example is_scanned_single_page :
  _is_scanned (Pdf [scanned_page]) 3 = inr true.
Proof. vm_compute. reflexivity. Qed.

(** ** The compression pipeline *)

(** The progress checkpoints of a successful run. *)
Lemma compress_progress_checkpoints H task_id url level w :
  match compress_pdf_task H task_id url level w with
  | (Return _, w') =>
      ∃ msgs ps,
        redis_stream w' = redis_stream w ++ msgs ∧
        progress_members msgs = JNumber <$> ps ∧
        (ps = [5; 20; 30; 70; 85; 100]%Z ∨ ps = [5; 20; 30; 45; 70; 85; 100]%Z)
  | (Raise _, _) => True
  end.
Proof.
  destruct w as [h s f c].
  unfold_task. rewrite ?LEVELS_resolved. repeat step; cbn.
  all: try exact I.

  all: rewrite <- ?app_assoc; simpl; eexists.
  all: first [ exists [5; 20; 30; 70; 85; 100]%Z; by eauto
             | exists [5; 20; 30; 45; 70; 85; 100]%Z; by eauto ].
Qed.

(** C2: the progress values a successful run of [compress_pdf_task] reports
    are numbers, never decrease from one report to the next, and end with
    100. *)
Theorem progress_monotone H task_id url level w url' w' :
  compress_pdf_task H task_id url level w = (Return url', w') →
  ∃ msgs ps,
    redis_stream w' = redis_stream w ++ msgs ∧
    progress_members msgs = JNumber <$> ps ∧
    StronglySorted Z.le ps ∧
    last ps = Some 100%Z.
Proof.
  intros Hrun. pose proof (compress_progress_checkpoints H task_id url level w) as Hcp.
  rewrite Hrun in Hcp. destruct Hcp as (msgs & ps & Hstream & Hprog & Hps).
  exists msgs, ps. split; [done|]. split; [done|].
  destruct Hps as [-> | ->]; (split; [|reflexivity]).
  all: repeat constructor; lia.
Qed.

Lemma progress_monotone_witness :
  ∃ msgs ps,
    redis_stream
      (compress_pdf_task (sample_host (inr sample_payload) (Some "/usr/bin/ocrmypdf"))
         "job-1" "https://files.example/in.pdf" "high" empty_world).2 =
      redis_stream empty_world ++ msgs ∧
    progress_members msgs = JNumber <$> ps ∧
    StronglySorted Z.le ps ∧
    last ps = Some 100%Z.
Proof.
  apply (progress_monotone
           (sample_host (inr sample_payload) (Some "/usr/bin/ocrmypdf"))
           "job-1" "https://files.example/in.pdf" "high" empty_world
           "https://res.example/out.pdf").
  vm_compute. reflexivity.
Defined.


(** A complete run on the sample host, with an OCR binary installed: the
    outcome, the progress reports and the collaborators called, in order. *)
Example sample_run_trace :
  let r := compress_pdf_task
             (sample_host (inr sample_payload) (Some "/usr/bin/ocrmypdf"))
             "job-1" "https://files.example/in.pdf" "high" empty_world in
  r.1 = Return "https://res.example/out.pdf" ∧
  progress_members (redis_stream r.2) = JNumber <$> [5; 20; 30; 45; 70; 85; 100]%Z ∧
  job_field r.2 "job-1" "status" = Some "completed" ∧
  job_field r.2 "job-1" "progress" = Some "100" ∧
  fs r.2 = ∅ ∧
  calls r.2 =
    [requests_get_call "https://files.example/in.pdf";
     mkdtemp_call "/tmp/tmpw0rk";
     open_wb_call "/tmp/tmpw0rk/src.pdf";
     pikepdf_open_call "/tmp/tmpw0rk/src.pdf";
     pikepdf_save_call "/tmp/tmpw0rk/p1.pdf";
     subprocess_run_call
       ["/usr/bin/ocrmypdf"; "--skip-text"; "--optimize"; "2";
        "--jpeg-quality"; "45"; "--image-dpi"; "96"; "--jbig2-lossy";
        "--output-type"; "pdf"; "/tmp/tmpw0rk/p1.pdf"; "/tmp/tmpw0rk/p2.pdf"];
     subprocess_run_call
       ["/usr/bin/gs"; "-sDEVICE=pdfwrite"; "-dCompatibilityLevel=1.4";
        "-dPDFSETTINGS=/screen"; "-dNOPAUSE"; "-dQUIET"; "-dBATCH"; "-dSAFER";
        "-sOutputFile=/tmp/tmpw0rk/out.pdf"; "/tmp/tmpw0rk/p2.pdf"];
     cu_upload_call "/tmp/tmpw0rk/out.pdf";
     cleanup_call "/tmp/tmpw0rk"].
Proof. vm_compute. repeat split. Qed.

(** The savings ratio for 400 bytes out of 1000 is exactly 60. *)
Example saving_ratio_400_of_1000 :
  PrimFloat.eqb
    (PrimFloat.mul 100
       (PrimFloat.sub 1 (PrimFloat.div (float_of_nat 400) (float_of_nat 1000))))
    60 = true.
Proof. vm_compute. reflexivity. Qed.

(** *** Reading the job record through a chain of reports *)

Lemma foldl_insert_lookup (mapping : list (string * string)) (r : gmap string string) k :
  foldl (λ r kv, <[kv.1 := kv.2]> r) r mapping !! k =
    match mapped k mapping with
    | Some v => Some v
    | None => r !! k
    end.
Proof.
  unfold mapped. induction mapping as [|[k' v] rest IH] using rev_ind; [done|].
  rewrite !foldl_app. simpl. destruct (String.eqb_spec k k') as [->|Hne].
  - by rewrite lookup_insert_eq.
  - by rewrite lookup_insert_ne.
Qed.

Lemma hget_hset task_id mapping h k :
  hget task_id k (hset task_id mapping h) =
    match mapped k mapping with
    | Some v => Some v
    | None => hget task_id k h
    end.
Proof. unfold hget, hset. rewrite lookup_insert_eq. apply foldl_insert_lookup. Qed.

(** *** Failure reporting *)

(** No message of an unsuccessful [try] block mentions a result URL, and the
    block leaves the [result_url] field of the record alone. *)
Lemma compress_body_no_result_url H task_id url level w :
  match compress_body H task_id url level w with
  | (Return _, _) => True
  | (Raise _, wb) =>
      (∃ msgs, redis_stream wb = redis_stream w ++ msgs ∧
               Forall (λ cm, member "result_url" cm.2 = None) msgs) ∧
      job_field wb task_id "result_url" = job_field w task_id "result_url"
  end.
Proof.
  destruct w as [h s f c].
  unfold_task. rewrite ?LEVELS_resolved. repeat step; cbn.
  all: try exact I.
  all: split; [rewrite <- ?app_assoc; eexists; split; [reflexivity|];
               repeat constructor
              | by rewrite ?hget_hset ].
Qed.

Lemma compress_handler_returns task_id e wb :
  ∃ prefix,
    prefix = (if decide (exn_cls e = CalledProcessError)
              then "Process Error: " else "Worker Error: ") ∧
    compress_handler task_id e wb =
      _update task_id [("status", PStr "failed");
                       ("error", PStr (prefix +:+ exn_text e))] wb.
Proof.
  eexists. split; [reflexivity|]. unfold compress_handler.
  destruct (exn_cls e); reflexivity.
Qed.

(** C4: whatever exception [e] the [try] block of [compress_pdf_task]
    raises, the task records [status=failed] and an error message ending in
    [str(e)] in the job's record, publishes the same two fields, and raises
    [e] itself to its caller; on such a run no published message carries a
    [result_url] and the record's [result_url] field is not written. *)
Theorem failure_recorded_and_reraised H task_id url level w e wb :
  compress_body H task_id url level w = (Raise e, wb) →
  ∃ w' prefix msgs,
    compress_pdf_task H task_id url level w = (Raise e, w') ∧
    prefix = (if decide (exn_cls e = CalledProcessError)
              then "Process Error: " else "Worker Error: ") ∧
    job_field w' task_id "status" = Some "failed" ∧
    job_field w' task_id "error" = Some (prefix +:+ exn_text e) ∧
    redis_stream w' =
      redis_stream w ++ msgs ++
        [("progress:" +:+ task_id,
          [("status", JString "failed");
           ("error", JString (prefix +:+ exn_text e))])] ∧
    Forall (λ cm, member "result_url" cm.2 = None) msgs ∧
    job_field w' task_id "result_url" = job_field w task_id "result_url".
Proof.
  intros Hbody.
  pose proof (compress_body_no_result_url H task_id url level w) as Hno.
  rewrite Hbody in Hno. destruct Hno as [(msgs & Hstream & Hmsgs) Hurl].
  destruct (compress_handler_returns task_id e wb) as (prefix & Hprefix & Hh).
  eexists _, prefix, msgs. split.
  { unfold compress_pdf_task, try_except_reraise. rewrite Hbody, Hh.
    reflexivity. }
  split; [done|]. destruct wb as [hb sb fb cb]. cbn in *.
  rewrite !hget_hset. cbn. rewrite Hstream, <- app_assoc. done.
Qed.

Lemma failure_recorded_and_reraised_witness :
  ∃ w' prefix msgs,
    compress_pdf_task (sample_host (inl connection_error) None)
      "job-1" "https://files.example/in.pdf" "medium" empty_world =
      (Raise connection_error, w') ∧
    prefix = "Worker Error: " ∧
    job_field w' "job-1" "status" = Some "failed" ∧
    job_field w' "job-1" "error" = Some (prefix +:+ "connection refused") ∧
    redis_stream w' =
      redis_stream empty_world ++ msgs ++
        [("progress:" +:+ "job-1",
          [("status", JString "failed");
           ("error", JString (prefix +:+ "connection refused"))])] ∧
    Forall (λ cm, member "result_url" cm.2 = None) msgs ∧
    job_field w' "job-1" "result_url" = job_field empty_world "job-1" "result_url".
Proof.
  apply (failure_recorded_and_reraised (sample_host (inl connection_error) None)
           "job-1" "https://files.example/in.pdf" "medium" empty_world
           connection_error
           (compress_body (sample_host (inl connection_error) None)
              "job-1" "https://files.example/in.pdf" "medium" empty_world).2).
  vm_compute. reflexivity.
Defined.

(** C5: when the download yields zero bytes, [compress_pdf_task] raises the
    [ValueError] for an empty source (the specification's DownloadError); the
    only collaborator it has called is the HTTP download, so no temporary
    directory was created, and the file system is as it was. *)
Theorem zero_byte_download_rejected H task_id url level w :
  requests_get H url = inr [] →
  ∃ w',
    compress_pdf_task H task_id url level w =
      (Raise (Exn ValueError "Source file download is 0 bytes."), w') ∧
    calls w' = calls w ++ [requests_get_call url] ∧
    fs w' = fs w ∧
    job_field w' task_id "status" = Some "failed" ∧
    job_field w' task_id "error" =
      Some "Worker Error: Source file download is 0 bytes.".
Proof.
  intros Hget. destruct w as [h s f c].
  unfold_task. rewrite LEVELS_resolved. cbn. rewrite Hget. cbn.
  eexists. split; [reflexivity|]. cbn. rewrite !hget_hset. done.
Qed.

Lemma zero_byte_download_rejected_witness :
  ∃ w',
    compress_pdf_task (sample_host (inr []) None)
      "job-1" "https://files.example/empty.pdf" "medium" empty_world =
      (Raise (Exn ValueError "Source file download is 0 bytes."), w') ∧
    calls w' = calls empty_world ++ [requests_get_call "https://files.example/empty.pdf"] ∧
    fs w' = fs empty_world ∧
    job_field w' "job-1" "status" = Some "failed" ∧
    job_field w' "job-1" "error" =
      Some "Worker Error: Source file download is 0 bytes.".
Proof.
  apply (zero_byte_download_rejected (sample_host (inr []) None)
           "job-1" "https://files.example/empty.pdf" "medium" empty_world).
  reflexivity.
Defined.

(** *** Staging directory *)

Lemma rmtree_lookup sep dir f path :
  path = dir ∨ inside sep dir path = true →
  rmtree sep dir f !! path = None.
Proof.
  intros Hp. unfold rmtree. apply map_lookup_filter_None. right.
  intros nd _ [Hne Hin]. simpl in *. destruct Hp as [->|Hp]; [done|congruence].
Qed.

(** C7: once the download has produced a non-empty payload, the task
    creates its temporary directory, and when the task ends, by returning
    or by raising, neither that directory nor any path below it exists. *)
Theorem staging_directory_removed H task_id url level w data :
  requests_get H url = inr data →
  data ≠ [] →
  let tmp := mkdtemp H (fs w) in
  let w' := (compress_pdf_task H task_id url level w).2 in
  mkdtemp_call tmp ∈ calls w' ∧
  fs w' !! tmp = None ∧
  ∀ path, inside (os_sep H) tmp path = true → fs w' !! path = None.
Proof.
  intros Hget Hdata tmp w'. subst tmp w'. destruct w as [h s f c].
  destruct data as [|b data]; [done|]. clear Hdata.
  cut (match compress_pdf_task H task_id url level (World h s f c) with
       | (_, w') =>
           mkdtemp_call (mkdtemp H f) ∈ calls w' ∧
           fs w' !! mkdtemp H f = None ∧
           ∀ path, inside (os_sep H) (mkdtemp H f) path = true → fs w' !! path = None
       end).
  { by destruct (compress_pdf_task H task_id url level (World h s f c)). }
  unfold_task. rewrite LEVELS_resolved. cbn. rewrite Hget.
  repeat step; cbn.
  all: split; [rewrite <- ?app_assoc; apply elem_of_app; right;
              apply list_elem_of_further, list_elem_of_here|].
  all: split; [|intros path Hpath]; apply rmtree_lookup; auto.
Qed.

Lemma staging_directory_removed_witness :
  let w' := (compress_pdf_task (sample_host (inr sample_payload) None)
               "job-1" "https://files.example/in.pdf" "low" empty_world).2 in
  mkdtemp_call "/tmp/tmpw0rk" ∈ calls w' ∧
  fs w' !! "/tmp/tmpw0rk" = None ∧
  ∀ path, inside "/" "/tmp/tmpw0rk" path = true → fs w' !! path = None.
Proof.
  apply (staging_directory_removed (sample_host (inr sample_payload) None)
           "job-1" "https://files.example/in.pdf" "low" empty_world sample_payload).
  - reflexivity.
  - discriminate.
Defined.

(** *** Optional OCR *)

Lemma os_path_exists_Some path f nd :
  f !! path = Some nd → os_path_exists path f = true.
Proof. intros Hnd. unfold os_path_exists. apply bool_decide_eq_true_2. eauto. Qed.

Lemma os_path_getsize_File dir_size path f data :
  f !! path = Some (File data) →
  os_path_getsize dir_size path f = inr (length data).
Proof. intros Hnd. unfold os_path_getsize. by rewrite Hnd. Qed.

(** Without an OCR binary the only child process a run ever starts is
    Ghostscript, reading the pre-OCR artifact [p1.pdf]. *)
Lemma no_ocr_process H task_id url level w :
  OCR_EXEC H = None →
  match compress_pdf_task H task_id url level w with
  | (_, w') =>
      ∃ new,
        calls w' = calls w ++ new ∧
        Forall (only_process
                  (gs_command H (profile_of_name level)
                     (os_path_join H (mkdtemp H (fs w)) "out.pdf")
                     (os_path_join H (mkdtemp H (fs w)) "p1.pdf"))) new
  end.
Proof.
  intros Hocr. destruct w as [h s f c].
  unfold_task. unfold truthy. rewrite LEVELS_resolved, Hocr.
  repeat step; cbn.
  all: eexists; (split; [rewrite <- ?app_assoc; reflexivity|]).
  all: repeat constructor.
Qed.

(** C6: with no OCR binary on the host, no run starts an OCR process; and
    when the document is classified as scanned and the remaining stages
    succeed, Ghostscript reads the pre-OCR artifact [p1.pdf], the task
    returns the uploaded URL and the job is recorded as completed. *)
Theorem ocr_unavailable_is_skipped H task_id url level w :
  OCR_EXEC H = None →
  let tmp := mkdtemp H (fs w) in
  let src := os_path_join H tmp "src.pdf" in
  let p1 := os_path_join H tmp "p1.pdf" in
  let out := os_path_join H tmp "out.pdf" in
  let gs_cmd := gs_command H (profile_of_name level) out p1 in
  (∃ new,
     calls (compress_pdf_task H task_id url level w).2 = calls w ++ new ∧
     Forall (only_process gs_cmd) new) ∧
  ∀ data doc fs2 d1 fs3 dout resp url',
    requests_get H url = inr data → data ≠ [] →
    let fs1 := <[src := File data]> (<[tmp := Dir]> (fs w)) in
    pikepdf_open H src fs1 = inr doc →
    _is_scanned doc 3 = inr true →
    pikepdf_save H doc p1 fs1 = (inr (), fs2) →
    fs2 !! p1 = Some (File d1) → d1 ≠ [] →
    subprocess_run H gs_cmd fs2 = (inr 0%Z, fs3) →
    fs3 !! out = Some (File dout) → dout ≠ [] →
    cu_upload H out fs3 = inr resp →
    resp !! "secure_url" = Some url' →
    ∃ w',
      compress_pdf_task H task_id url level w = (Return url', w') ∧
      calls w' =
        calls w ++
          [requests_get_call url; mkdtemp_call tmp; open_wb_call src;
           pikepdf_open_call src; pikepdf_save_call p1;
           subprocess_run_call gs_cmd; cu_upload_call out; cleanup_call tmp] ∧
      job_field w' task_id "status" = Some "completed" ∧
      job_field w' task_id "result_url" = Some url'.
Proof.
  intros Hocr tmp src p1 out gs_cmd. split.
  { pose proof (no_ocr_process H task_id url level w Hocr) as Hno.
    by destruct (compress_pdf_task H task_id url level w). }
  intros data doc fs2 d1 fs3 dout resp url' Hget Hdata fs1 Hopen Hscan Hsave
    Hp1 Hd1 Hgs Hout Hdout Hup Hurl.
  subst tmp src p1 out gs_cmd fs1. unfold gs_command in *.
  destruct w as [h s f c]. cbn [fs calls] in *.
  destruct data as [|b data]; [done|].
  destruct d1 as [|b1 d1]; [done|].
  destruct dout as [|bo dout]; [done|].
  unfold_task. unfold truthy. rewrite LEVELS_resolved, Hocr. cbn.
  rewrite Hget. cbn.
  rewrite (os_path_exists_Some _ _ _ (lookup_insert_eq _ _ _)). cbn.
  rewrite (os_path_getsize_File _ _ _ _ (lookup_insert_eq _ _ _)). cbn.
  rewrite Hopen. cbn. rewrite Hscan. cbn. rewrite Hsave. cbn.
  rewrite (os_path_exists_Some _ _ _ Hp1). cbn.
  rewrite (os_path_getsize_File _ _ _ _ Hp1). cbn.
  rewrite Hgs. cbn.
  rewrite (os_path_exists_Some _ _ _ Hout). cbn.
  rewrite (os_path_getsize_File _ _ _ _ Hout). cbn.
  rewrite Hup. cbn. rewrite Hurl. cbn.
  eexists. split; [reflexivity|]. cbn. rewrite <- !app_assoc.
  split; [reflexivity|]. rewrite !hget_hset. done.
Qed.

Lemma ocr_unavailable_is_skipped_witness :
  ∃ w',
    compress_pdf_task (sample_host (inr sample_payload) None)
      "job-1" "https://files.example/scan.pdf" "medium" empty_world =
      (Return "https://res.example/out.pdf", w') ∧
    job_field w' "job-1" "status" = Some "completed" ∧
    job_field w' "job-1" "result_url" = Some "https://res.example/out.pdf".
Proof.
  destruct (ocr_unavailable_is_skipped (sample_host (inr sample_payload) None)
              "job-1" "https://files.example/scan.pdf" "medium" empty_world eq_refl)
    as [_ Hrun].
  destruct (Hrun sample_payload (Pdf [scanned_page; scanned_page])
              (<["/tmp/tmpw0rk/p1.pdf" := File sample_payload]>
                 (<["/tmp/tmpw0rk/src.pdf" := File sample_payload]>
                    (<["/tmp/tmpw0rk" := Dir]> ∅)))
              sample_payload
              (<["/tmp/tmpw0rk/out.pdf" := File [Byte.x25; Byte.x50]]>
                 (<["/tmp/tmpw0rk/p2.pdf" := File sample_payload]>
                    (<["/tmp/tmpw0rk/p1.pdf" := File sample_payload]>
                       (<["/tmp/tmpw0rk/src.pdf" := File sample_payload]>
                          (<["/tmp/tmpw0rk" := Dir]> ∅)))))
              [Byte.x25; Byte.x50]
              {["secure_url" := "https://res.example/out.pdf"]}
              "https://res.example/out.pdf")
    as (w' & Htask & _ & Hstatus & Hurl).
  - reflexivity.
  - discriminate.
  - reflexivity.
  - vm_compute. reflexivity.
  - reflexivity.
  - vm_compute. reflexivity.
  - discriminate.
  - reflexivity.
  - vm_compute. reflexivity.
  - discriminate.
  - reflexivity.
  - vm_compute. reflexivity.
  - exists w'. auto.
Defined.

(** ** Page extraction *)

Lemma invalid_page_range_spec (start_page end_page total_pages : Z) :
  invalid_page_range start_page end_page total_pages = true ↔
  (start_page < 1 ∨ end_page > total_pages ∨ start_page > end_page)%Z.
Proof. unfold invalid_page_range. rewrite !orb_true_iff. lia. Qed.

(** Inside the accepted range [insert_pdf] copies the pages numbered
    [start_page] to [end_page], counting from 1. *)
Lemma insert_pdf_range (docsrc : list page) (start_page end_page : Z) :
  invalid_page_range start_page end_page (Z.of_nat (length docsrc)) = false →
  let extracted := insert_pdf [] docsrc (start_page - 1) (end_page - 1) in
  Z.of_nat (length extracted) = (end_page - start_page + 1)%Z ∧
  ∀ i : nat, i < length extracted →
    extracted !! i = docsrc !! (Z.to_nat (start_page - 1) + i).
Proof.
  intros Hvalid. apply not_true_iff_false in Hvalid.
  rewrite invalid_page_range_spec in Hvalid.
  unfold insert_pdf. cbv zeta.
  assert ((end_page - 1 <? 0)%Z = false) as -> by lia.
  replace (Z.min (Z.max (start_page - 1) 0) (Z.of_nat (length docsrc) - 1))
    with (start_page - 1)%Z by lia.
  replace (Z.min (end_page - 1) (Z.of_nat (length docsrc) - 1))
    with (end_page - 1)%Z by lia.
  assert ((start_page - 1 <=? end_page - 1)%Z = true) as -> by lia.
  rewrite app_nil_l. split.
  - rewrite length_take, length_drop. lia.
  - intros i Hi. rewrite length_take in Hi.
    rewrite lookup_take_lt by lia. by rewrite lookup_drop.
Qed.

(** C10: on a downloaded PDF of [total_pages] pages, [extract_pdf_task]
    raises [ValueError("Invalid page range")] at its guard exactly when
    [start_page < 1], [end_page > total_pages] or [start_page > end_page];
    it then records [status=failed] with that message and has called
    nothing but the download and the PDF parser. Otherwise it copies pages
    [start_page] to [end_page] inclusive, hands that document to the
    serialiser, and its outcome is that of saving and uploading it. *)
Theorem extract_page_range H task_id url start_page end_page w content original_pdf :
  requests_get H url = inr content →
  fitz_open H content = inr original_pdf →
  let total_pages := Z.of_nat (length original_pdf) in
  let r := extract_pdf_task H task_id url start_page end_page w in
  (invalid_page_range start_page end_page total_pages = true ↔
     (start_page < 1 ∨ end_page > total_pages ∨ start_page > end_page)%Z) ∧
  if invalid_page_range start_page end_page total_pages then
    r.1 = Raise (Exn ValueError "Invalid page range") ∧
    calls r.2 = calls w ++ [requests_get_call url; fitz_open_call] ∧
    job_field r.2 task_id "status" = Some "failed" ∧
    job_field r.2 task_id "error" = Some "Invalid page range"
  else
    ∃ extracted rest,
      Z.of_nat (length extracted) = (end_page - start_page + 1)%Z ∧
      (∀ i : nat, i < length extracted →
         extracted !! i = original_pdf !! (Z.to_nat (start_page - 1) + i)) ∧
      calls r.2 =
        calls w ++
          [requests_get_call url; fitz_open_call;
           fitz_insert_pdf_call (start_page - 1) (end_page - 1);
           fitz_save_call extracted] ++ rest ∧
      r.1 = extract_rest H task_id extracted.
Proof.
  intros Hget Hopen total_pages r. split; [apply invalid_page_range_spec|].
  subst r total_pages. destruct w as [h s f c].
  destruct (invalid_page_range _ _ _) eqn:Hrange.
  - unfold_task. cbn. rewrite Hget. cbn. rewrite Hopen. cbn. rewrite Hrange. cbn.
    rewrite <- !app_assoc. rewrite !hget_hset. done.
  - destruct (insert_pdf_range original_pdf start_page end_page Hrange) as [Hlen Hpages].
    exists (insert_pdf [] original_pdf (start_page - 1) (end_page - 1)).
    cut (match extract_pdf_task H task_id url start_page end_page (World h s f c) with
         | (o, w') =>
             ∃ rest,
               calls w' =
                 c ++ [requests_get_call url; fitz_open_call;
                       fitz_insert_pdf_call (start_page - 1) (end_page - 1);
                       fitz_save_call
                         (insert_pdf [] original_pdf (start_page - 1) (end_page - 1))]
                   ++ rest ∧
               o = extract_rest H task_id
                     (insert_pdf [] original_pdf (start_page - 1) (end_page - 1))
         end).
    { destruct (extract_pdf_task _ _ _ _ _ _) as [o w']. intros [rest [Hc Ho]].
      exists rest. eauto. }
    unfold extract_rest. unfold_task. cbn. rewrite Hget. cbn. rewrite Hopen. cbn.
    rewrite Hrange. cbn.
    repeat step; cbn.
    all: rewrite <- ?app_assoc; cbn; eexists; split; [|reflexivity].
    all: try reflexivity.
    all: by rewrite app_nil_r.
Qed.

Lemma extract_page_range_witness :
  let H := sample_host (inr sample_payload) None in
  let r := extract_pdf_task H "job-2" "https://files.example/in.pdf" 2 3 empty_world in
  ∃ extracted rest,
    Z.of_nat (length extracted) = (3 - 2 + 1)%Z ∧
    (∀ i : nat, i < length extracted →
       extracted !! i =
         [scanned_page; text_page; scanned_page] !! (Z.to_nat (2 - 1) + i)) ∧
    calls r.2 =
      calls empty_world ++
        [requests_get_call "https://files.example/in.pdf"; fitz_open_call;
         fitz_insert_pdf_call (2 - 1) (3 - 1); fitz_save_call extracted] ++ rest ∧
    r.1 = extract_rest H "job-2" extracted.
Proof.
  intros H r.
  pose proof (extract_page_range H "job-2" "https://files.example/in.pdf" 2 3
                empty_world sample_payload [scanned_page; text_page; scanned_page]
                eq_refl eq_refl) as [_ Hvalid].
  exact Hvalid.
Defined.

(** A range starting at page 0 is refused before anything is extracted. *)
Example extract_refuses_page_zero :
  let r := extract_pdf_task (sample_host (inr sample_payload) None)
             "job-2" "https://files.example/in.pdf" 0 2 empty_world in
  r.1 = Raise (Exn ValueError "Invalid page range") ∧
  job_field r.2 "job-2" "status" = Some "failed" ∧
  calls r.2 = [requests_get_call "https://files.example/in.pdf"; fitz_open_call].
Proof. vm_compute. repeat split. Qed.

(** * Further properties *)

(** ** Path sanitising *)

Lemma replace_char_length old new s :
  String.length (replace_char old new s) = String.length s.
Proof. induction s as [|c rest IH]; simpl; [done|]. by rewrite IH. Qed.

Lemma replace_char_get old new s i :
  String.get i (replace_char old new s) =
    (λ c, if Ascii.eqb c old then new else c) <$> String.get i s.
Proof.
  revert i. induction s as [|c rest IH]; intros i; simpl; [done|].
  destruct i as [|i]; simpl; [done|]. apply IH.
Qed.

Lemma replace_char_absent old new s :
  (∀ i, String.get i s ≠ Some old) → replace_char old new s = s.
Proof.
  induction s as [|c rest IH]; intros Habs; simpl; [done|].
  destruct (Ascii.eqb_spec c old) as [->|Hne].
  - by destruct (Habs 0).
  - f_equal. apply IH. intros i. apply (Habs (S i)).
Qed.

(** X1: on every host [_safe_path] keeps the length of the path and every
    character other than a backslash in its place, and applying it twice is
    the same as applying it once. *)
Theorem safe_path_idempotent (H : host) (path : string) :
  String.length (_safe_path H path) = String.length path ∧
  (∀ i c, String.get i path = Some c → c ≠ "092"%char →
          String.get i (_safe_path H path) = Some c) ∧
  _safe_path H (_safe_path H path) = _safe_path H path.
Proof.
  unfold _safe_path. destruct (String.eqb (platform_system H) "Windows"); [|done].
  split; [apply replace_char_length|]. split.
  - intros i c Hget Hne. rewrite replace_char_get, Hget. simpl.
    by destruct (Ascii.eqb_spec c "092"%char).
  - apply replace_char_absent. intros i. rewrite replace_char_get.
    destruct (String.get i path) as [c|]; simpl; [|done].
    destruct (Ascii.eqb_spec c "092"%char) as [->|Hne]; [done|congruence].
Qed.

(** X2: on a Windows host the path [_safe_path] returns holds no backslash:
    each one has become a forward slash. *)
Theorem safe_path_windows (H : host) (path : string) :
  platform_system H = "Windows" →
  ∀ i, String.get i (_safe_path H path) =
         (λ c, if Ascii.eqb c "092"%char then "/"%char else c) <$> String.get i path ∧
       String.get i (_safe_path H path) ≠ Some "092"%char.
Proof.
  intros Hwin i. unfold _safe_path. rewrite Hwin. simpl.
  rewrite replace_char_get. split; [done|].
  destruct (String.get i path) as [c|]; simpl; [|done].
  destruct (Ascii.eqb_spec c "092"%char) as [->|Hne]; [done|congruence].
Qed.

Lemma safe_path_windows_witness :
  _safe_path windows_host (GS_EXEC windows_host) = "C:/gs/gswin64c.exe" ∧
  ∀ i, String.get i (_safe_path windows_host (GS_EXEC windows_host)) ≠ Some "092"%char.
Proof.
  split; [reflexivity|].
  intros i. apply (safe_path_windows windows_host (GS_EXEC windows_host) eq_refl i).
Defined.

(** ** Locating the binaries *)

Lemma truthy_Some o s : truthy o = Some s → o = Some s ∧ s ≠ "".
Proof.
  unfold truthy. destruct o as [s'|]; [|done].
  destruct (String.eqb_spec s' "") as [->|Hne]; [done|]. by intros [= ->].
Qed.

Lemma find_executable_cases os_name which unix_name windows_alt :
  match _find_executable os_name which unix_name windows_alt with
  | inr path =>
      path ≠ "" ∧
      (which unix_name = Some path ∨
       os_name = "nt" ∧ ∃ alt, windows_alt = Some alt ∧ alt ≠ "" ∧ which alt = Some path)
  | inl e =>
      e = Exn FileNotFoundError ("Executable not found: " +:+ unix_name) ∧
      truthy (which unix_name) = None ∧
      (os_name = "nt" → ∀ alt, truthy windows_alt = Some alt → truthy (which alt) = None)
  end.
Proof.
  unfold _find_executable.
  destruct (String.eqb_spec os_name "nt") as [->|Hos].
  - destruct (truthy windows_alt) as [alt|] eqn:Halt.
    + apply truthy_Some in Halt as [-> Halt].
      destruct (truthy (which alt)) as [p|] eqn:Hp.
      * apply truthy_Some in Hp as [Hp Hne]. split; [done|]. right. eauto 6.
      * destruct (truthy (which unix_name)) as [p|] eqn:Hu.
        -- apply truthy_Some in Hu as [Hu Hne]. eauto.
        -- split; [done|]. split; [done|]. by intros _ alt' [= <-].
    + destruct (truthy (which unix_name)) as [p|] eqn:Hu.
      * apply truthy_Some in Hu as [Hu Hne]. eauto.
      * split; [done|]. split; [done|]. intros _ alt' [=].
  - destruct (truthy (which unix_name)) as [p|] eqn:Hu.
    + apply truthy_Some in Hu as [Hu Hne]. eauto.
    + split; [done|]. split; [done|]. intros Hnt. done.
Qed.

(** X3: whatever [_find_executable] returns is a non-empty path that
    [shutil.which] gave for the Unix name or, on Windows only, for the
    Windows alternative; and it raises [FileNotFoundError], naming the Unix
    name, only when [shutil.which] finds nothing for the Unix name. *)
Theorem find_executable_sound os_name which unix_name windows_alt :
  match _find_executable os_name which unix_name windows_alt with
  | inr path =>
      path ≠ "" ∧
      (which unix_name = Some path ∨
       os_name = "nt" ∧ ∃ alt, windows_alt = Some alt ∧ alt ≠ "" ∧ which alt = Some path)
  | inl e =>
      e = Exn FileNotFoundError ("Executable not found: " +:+ unix_name) ∧
      truthy (which unix_name) = None ∧
      (os_name = "nt" → ∀ alt, truthy windows_alt = Some alt → truthy (which alt) = None)
  end.
Proof. apply find_executable_cases. Qed.

(** X4: on Windows ([os.name == "nt"]) a Windows alternative that is found
    wins over the Unix name; on any other system the alternative is never
    looked up and the answer is the one for the Unix name. *)
Theorem find_executable_precedence os_name which unix_name alt path :
  alt ≠ "" → which alt = Some path → path ≠ "" →
  _find_executable os_name which unix_name (Some alt) =
    if String.eqb os_name "nt" then inr path
    else _find_executable os_name which unix_name None.
Proof.
  intros Halt Hwhich Hpath. apply String.eqb_neq in Halt, Hpath.
  unfold _find_executable. destruct (String.eqb os_name "nt"); [|done].
  unfold truthy. by rewrite Halt, Hwhich, Hpath.
Qed.

Lemma find_executable_precedence_witness :
  _find_executable "nt" sample_which "gs" (Some "gswin64c") = inr "C:/gs/bin/gswin64c.exe" ∧
  _find_executable "posix" sample_which "gs" (Some "gswin64c") = inr "C:/shims/gs.cmd".
Proof.
  split.
  - apply (find_executable_precedence "nt" sample_which "gs" "gswin64c"
             "C:/gs/bin/gswin64c.exe"); [discriminate|reflexivity|discriminate].
  - rewrite (find_executable_precedence "posix" sample_which "gs" "gswin64c"
               "C:/gs/bin/gswin64c.exe"); [reflexivity|discriminate|reflexivity|discriminate].
Defined.

(** X5: importing the module succeeds whenever [gs] is on the search path,
    whether or not [ocrmypdf] is installed; [GS_EXEC] is then a non-empty
    path and [OCR_EXEC] is exactly the answer of [shutil.which("ocrmypdf")].
    Conversely the import fails, with [FileNotFoundError] for [gs], only
    when [gs] is not found. *)
Theorem resolve_binaries_needs_only_gs os_name which :
  match resolve_binaries os_name which with
  | inr (gs_exec, ocr_exec) => gs_exec ≠ "" ∧ ocr_exec = which "ocrmypdf"
  | inl e =>
      e = Exn FileNotFoundError "Executable not found: gs" ∧
      truthy (which "gs") = None
  end.
Proof.
  unfold resolve_binaries.
  pose proof (find_executable_cases os_name which "gs" (Some "gswin64c")) as Hs.
  destruct (_find_executable os_name which "gs" (Some "gswin64c")) as [e|p].
  - destruct Hs as (-> & Hgs & _). done.
  - by destruct Hs as [Hne _].
Qed.

(** ** Reports compose *)

(** X6: two reports for the same job, each naming at least one field and
    no field twice, both return. Read back afterwards, a field of the job's
    record holds [str] of the value the second report gave it; failing
    that, of the value the first report gave it; failing that, what it held
    before. The records of other jobs are as they were, and the stream has
    received one message for each report, in the order of the reports. *)
Theorem update_state_merges task_id (fields1 fields2 : kwargs) (w : world) :
  fields1 ≠ [] → fields2 ≠ [] →
  NoDup fields1.*1 → NoDup fields2.*1 →
  let r1 := update_state task_id fields1 w in
  let r2 := update_state task_id fields2 r1.2 in
  r1.1 = Return tt ∧ r2.1 = Return tt ∧
  (∀ k, job_field r2.2 task_id k =
          match kwarg k fields2 with
          | Some v => Some (py_str v)
          | None =>
              match kwarg k fields1 with
              | Some v => Some (py_str v)
              | None => job_field w task_id k
              end
          end) ∧
  (∀ other k, other ≠ task_id → job_field r2.2 other k = job_field w other k) ∧
  redis_stream r2.2 =
    redis_stream w ++ [("progress:" +:+ task_id, json_dumps fields1);
                       ("progress:" +:+ task_id, json_dumps fields2)].
Proof.
  intros Hne1 Hne2 Hnd1 Hnd2.
  destruct fields1 as [|kv1 rest1]; [done|]. destruct fields2 as [|kv2 rest2]; [done|].
  remember (kv1 :: rest1) as fields1 eqn:E1. remember (kv2 :: rest2) as fields2 eqn:E2.
  assert (Hrun : ∀ (fields : kwargs) kv rest w0, fields = kv :: rest →
            update_state task_id fields w0 =
              (Return tt,
               set_redis (hset task_id (str_mapping fields) (redis_hashes w0))
                 (publish ("progress:" +:+ task_id) (json_dumps fields) (redis_stream w0))
                 w0)).
  { intros fields kv rest [h s f c] ->. reflexivity. }
  intros r1 r2. subst r2 r1.
  rewrite (Hrun fields1 kv1 rest1 w E1).
  rewrite (Hrun fields2 kv2 rest2 _ E2).
  clear Hrun E1 E2 Hne1 Hne2. destruct w as [h s f c].
  unfold job_field. cbn [fst snd redis_hashes redis_stream set_redis].
  split; [done|]. split; [done|]. split; [|split].
  - intros k. rewrite !hget_hset_fields by done. reflexivity.
  - intros other k Hne. unfold hget, hset. by rewrite !lookup_insert_ne.
  - unfold publish. by rewrite <- app_assoc.
Qed.

Lemma update_state_merges_witness :
  let r1 := update_state "job-1" [("status", PStr "processing"); ("progress", PInt 5)]
              empty_world in
  let r2 := update_state "job-1" [("progress", PInt 20)] r1.2 in
  job_field r2.2 "job-1" "status" = Some "processing" ∧
  job_field r2.2 "job-1" "progress" = Some "20" ∧
  redis_stream r2.2 =
    [("progress:job-1", [("status", JString "processing"); ("progress", JNumber 5)]);
     ("progress:job-1", [("progress", JNumber 20)])].
Proof.
  pose proof (update_state_merges "job-1"
    [("status", PStr "processing"); ("progress", PInt 5)] [("progress", PInt 20)]
    empty_world) as Hs.
  assert (Hnd1 : NoDup [("status", PStr "processing"); ("progress", PInt 5)].*1).
  { apply (bool_decide_unpack _). reflexivity. }
  assert (Hnd2 : NoDup [("progress", PInt 20)].*1).
  { apply (bool_decide_unpack _). reflexivity. }
  destruct (Hs ltac:(discriminate) ltac:(discriminate) Hnd1 Hnd2)
    as (_ & _ & Hrec & _ & Hstream).
  split; [exact (Hrec "status")|]. split; [exact (Hrec "progress")|]. exact Hstream.
Defined.

(** ** Classifier *)

Lemma filter_length_all {A} (P : A → Prop) `{∀ x, Decision (P x)} (l : list A) :
  length (filter P l) = length l ↔ Forall P l.
Proof.
  induction l as [|x l IH]; [by split; [constructor|]|].
  rewrite filter_cons. destruct (decide (P x)) as [Hx|Hx]; simpl.
  - rewrite Forall_cons. split.
    + intros [= Hl]. split; [done|]. by apply IH.
    + intros [_ Hl]. f_equal. by apply IH.
  - split.
    + intros Hl. pose proof (length_filter P l). lia.
    + by intros [? _]%Forall_cons.
Qed.

(** X7: with its sample of three pages and its threshold of 0.8,
    [_is_scanned] answers [True] exactly when the document has a page and
    every sampled page has an image and no [/Font] resource; one text page
    among the first three is enough for "not scanned", and pages after the
    third never matter. *)
Theorem is_scanned_all_sampled (doc : pdf) :
  _is_scanned doc 3 = inr true ↔
  pages doc ≠ [] ∧ Forall scanned_like (take 3 (pages doc)).
Proof.
  unfold _is_scanned. destruct (take 3 (pages doc)) as [|pg rest] eqn:Hs.
  - split; [discriminate|]. intros [Hne _]. destruct (pages doc); done.
  - assert (Hlen : length (pg :: rest) ≤ 3).
    { rewrite <- Hs, length_take. lia. }
    pose proof (length_filter scanned_like (pg :: rest)) as Hk.
    rewrite foldl_scanned_step. unfold py_truediv.
    change (Nat.eqb (length (pg :: rest)) 0) with false. cbv iota.
    rewrite threshold_exact by (simpl in *; lia).
    assert (Hn : 0 < length (pg :: rest)) by (simpl; lia).
    assert (Hpos : Z.pos (Pos.of_nat (length (pg :: rest))) =
                   Z.of_nat (length (pg :: rest))).
    { rewrite <- positive_nat_Z, Nat2Pos.id by lia. done. }
    pose proof (filter_length_all scanned_like (pg :: rest)) as Hall.
    remember (length (filter scanned_like (pg :: rest))) as k.
    remember (length (pg :: rest)) as n.
    rewrite <- Hall. clear Hall. split.
    + intros [= Hq]. apply Qle_bool_iff in Hq. unfold Qle in Hq.
      cbn [Qnum Qden] in Hq. rewrite Hpos in Hq.
      split; [by intros Hp; rewrite Hp in Hs|]. lia.
    + intros [_ ->]. f_equal. apply Qle_bool_iff. unfold Qle.
      cbn [Qnum Qden]. rewrite Hpos. lia.
Qed.

(** ** Page ranges *)

(** X8: the range from the first page to the last is accepted on every
    document that has a page, and extracting it copies the whole document. *)
Theorem extract_whole_document (docsrc : list page) :
  docsrc ≠ [] →
  let total_pages := Z.of_nat (length docsrc) in
  invalid_page_range 1 total_pages total_pages = false ∧
  insert_pdf [] docsrc (1 - 1) (total_pages - 1) = docsrc.
Proof.
  intros Hne total_pages. subst total_pages.
  assert (0 < length docsrc) by (destruct docsrc; [done|simpl; lia]).
  split.
  - unfold invalid_page_range. rewrite !orb_false_iff. lia.
  - unfold insert_pdf. cbv zeta.
    assert ((Z.of_nat (length docsrc) - 1 <? 0)%Z = false) as -> by lia.
    replace (Z.min (Z.max (1 - 1) 0) (Z.of_nat (length docsrc) - 1)) with 0%Z by lia.
    rewrite Z.min_id.
    assert ((0 <=? Z.of_nat (length docsrc) - 1)%Z = true) as -> by lia.
    rewrite app_nil_l. simpl. apply take_ge. lia.
Qed.

Lemma extract_whole_document_witness :
  insert_pdf [] [scanned_page; text_page; scanned_page] (1 - 1) (3 - 1) =
    [scanned_page; text_page; scanned_page].
Proof.
  apply (extract_whole_document [scanned_page; text_page; scanned_page]).
  discriminate.
Defined.

Lemma insert_pdf_valid (docsrc : list page) (start_page end_page : Z) :
  invalid_page_range start_page end_page (Z.of_nat (length docsrc)) = false →
  insert_pdf [] docsrc (start_page - 1) (end_page - 1) =
    take (Z.to_nat (end_page - start_page + 1)) (drop (Z.to_nat (start_page - 1)) docsrc).
Proof.
  intros Hvalid. apply not_true_iff_false in Hvalid.
  rewrite invalid_page_range_spec in Hvalid.
  unfold insert_pdf. cbv zeta.
  assert ((end_page - 1 <? 0)%Z = false) as -> by lia.
  replace (Z.min (Z.max (start_page - 1) 0) (Z.of_nat (length docsrc) - 1))
    with (start_page - 1)%Z by lia.
  replace (Z.min (end_page - 1) (Z.of_nat (length docsrc) - 1))
    with (end_page - 1)%Z by lia.
  assert ((start_page - 1 <=? end_page - 1)%Z = true) as -> by lia.
  rewrite app_nil_l. f_equal. lia.
Qed.

(** X9: extracting pages [s2..e2] from the extract [s1..e1] of a document
    is the same as extracting pages [s1+s2-1 .. s1+e2-1] from the document
    itself, and that range is accepted whenever the two are. *)
Theorem extract_twice (docsrc : list page) (s1 e1 s2 e2 : Z) :
  invalid_page_range s1 e1 (Z.of_nat (length docsrc)) = false →
  let first := insert_pdf [] docsrc (s1 - 1) (e1 - 1) in
  invalid_page_range s2 e2 (Z.of_nat (length first)) = false →
  invalid_page_range (s1 + s2 - 1) (s1 + e2 - 1) (Z.of_nat (length docsrc)) = false ∧
  insert_pdf [] first (s2 - 1) (e2 - 1) =
    insert_pdf [] docsrc (s1 + s2 - 1 - 1) (s1 + e2 - 1 - 1).
Proof.
  intros Hv1 first Hv2. subst first.
  destruct (insert_pdf_range docsrc s1 e1 Hv1) as [Hlen _].
  rewrite Hlen in Hv2.
  assert (Hv12 : invalid_page_range (s1 + s2 - 1) (s1 + e2 - 1)
                   (Z.of_nat (length docsrc)) = false).
  { apply not_true_iff_false in Hv1, Hv2. apply not_true_iff_false.
    rewrite invalid_page_range_spec in *. lia. }
  split; [done|].
  rewrite (insert_pdf_valid docsrc (s1 + s2 - 1) (s1 + e2 - 1) Hv12).
  rewrite (insert_pdf_valid _ s2 e2) by (by rewrite Hlen).
  rewrite (insert_pdf_valid docsrc s1 e1 Hv1).
  apply not_true_iff_false in Hv1, Hv2. rewrite invalid_page_range_spec in *.
  apply list_eq. intros i.
  repeat (rewrite lookup_take || rewrite lookup_drop).
  repeat case_decide; try lia; try done. f_equal. lia.
Qed.

Lemma extract_twice_witness :
  insert_pdf [] (insert_pdf [] [scanned_page; text_page; scanned_page; text_page] (2 - 1) (4 - 1))
    (2 - 1) (2 - 1) = [scanned_page].
Proof.
  destruct (extract_twice [scanned_page; text_page; scanned_page; text_page] 2 4 2 2
              eq_refl eq_refl) as [_ Heq].
  rewrite Heq. reflexivity.
Defined.

(** ** More on the compression pipeline *)

Lemma resolve_level_unknown (name : string) :
  name ∉ ["low"; "medium"; "high"] → resolve_level name = "medium".
Proof.
  intros Hname. unfold resolve_level. rewrite bool_decide_eq_false_2; [done|].
  intros [cfg Hcfg]%elem_of_dom. rewrite LEVELS_lookup in Hcfg.
  repeat case_decide; simplify_eq; set_solver.
Qed.

(** X10: a job submitted with a quality name other than "low", "medium" or
    "high" runs exactly as the same job submitted with "medium": same
    outcome, same reports, same files, same calls. *)
Theorem unknown_level_runs_as_medium H task_id url name w :
  name ∉ ["low"; "medium"; "high"] →
  compress_pdf_task H task_id url name w = compress_pdf_task H task_id url "medium" w.
Proof.
  intros Hname. unfold compress_pdf_task, compress_body.
  rewrite (resolve_level_unknown name Hname). reflexivity.
Qed.

Lemma unknown_level_runs_as_medium_witness :
  compress_pdf_task (sample_host (inr sample_payload) None)
    "job-1" "https://files.example/in.pdf" "ultra" empty_world =
  compress_pdf_task (sample_host (inr sample_payload) None)
    "job-1" "https://files.example/in.pdf" "medium" empty_world.
Proof.
  apply unknown_level_runs_as_medium.
  apply (bool_decide_unpack _). reflexivity.
Defined.

Lemma compress_success_report H task_id url level w :
  match compress_pdf_task H task_id url level w with
  | (Return cloud_url, w') =>
      job_field w' task_id "status" = Some "completed" ∧
      job_field w' task_id "progress" = Some "100" ∧
      job_field w' task_id "result_url" = Some cloud_url ∧
      (∃ f response,
         cu_upload H (os_path_join H (mkdtemp H (fs w)) "out.pdf") f = inr response ∧
         response !! "secure_url" = Some cloud_url) ∧
      (∃ data,
         requests_get H url = inr data ∧
         job_field w' task_id "original_kb" =
           Some (format_1f H (PrimFloat.div (float_of_nat (length data))
                                            (float_of_nat 1024)))) ∧
      ∃ message,
        last (redis_stream w') = Some ("progress:" +:+ task_id, message) ∧
        member "result_url" message = Some (JString cloud_url)
  | (Raise _, _) => True
  end.
Proof.
  destruct w as [h s f c].
  unfold_task. rewrite ?LEVELS_resolved. repeat step; cbn.
  all: try exact I.
  all: rewrite !hget_hset; cbn.
  all: repeat (split; [by eauto|]).
  all: eexists; split; [apply last_snoc|reflexivity].
Qed.

(** X11: when [compress_pdf_task] returns a URL, that URL is the
    [secure_url] of the upload of [out.pdf], the job's record holds it as
    [result_url] with [status=completed] and [progress] "100", the last
    published message carries it, and [original_kb] is the formatted size of
    the download divided by 1024. *)
Theorem compress_success_record H task_id url level w cloud_url w' :
  compress_pdf_task H task_id url level w = (Return cloud_url, w') →
  job_field w' task_id "status" = Some "completed" ∧
  job_field w' task_id "progress" = Some "100" ∧
  job_field w' task_id "result_url" = Some cloud_url ∧
  (∃ f response,
     cu_upload H (os_path_join H (mkdtemp H (fs w)) "out.pdf") f = inr response ∧
     response !! "secure_url" = Some cloud_url) ∧
  (∃ data,
     requests_get H url = inr data ∧
     job_field w' task_id "original_kb" =
       Some (format_1f H (PrimFloat.div (float_of_nat (length data))
                                        (float_of_nat 1024)))) ∧
  ∃ message,
    last (redis_stream w') = Some ("progress:" +:+ task_id, message) ∧
    member "result_url" message = Some (JString cloud_url).
Proof.
  intros Hrun. pose proof (compress_success_report H task_id url level w) as Hs.
  by rewrite Hrun in Hs.
Qed.

Lemma compress_success_record_witness :
  let w' := (compress_pdf_task (sample_host (inr sample_payload) None)
               "job-1" "https://files.example/in.pdf" "low" empty_world).2 in
  job_field w' "job-1" "status" = Some "completed" ∧
  job_field w' "job-1" "progress" = Some "100" ∧
  job_field w' "job-1" "result_url" = Some "https://res.example/out.pdf".
Proof.
  intros w'.
  destruct (compress_success_record (sample_host (inr sample_payload) None)
              "job-1" "https://files.example/in.pdf" "low" empty_world
              "https://res.example/out.pdf" w') as (Hst & Hpr & Hurl & _).
  - vm_compute. reflexivity.
  - auto.
Defined.

Lemma compress_process_shapes H task_id url level w :
  match compress_pdf_task H task_id url level w with
  | (_, w') =>
      let tmp := mkdtemp H (fs w) in
      let p1 := os_path_join H tmp "p1.pdf" in
      let p2 := os_path_join H tmp "p2.pdf" in
      let out := os_path_join H tmp "out.pdf" in
      let cfg := profile_of_name level in
      ∃ new,
        calls w' = calls w ++ new ∧
        (processes new = [] ∨
         processes new = [gs_command H cfg out p1] ∨
         ∃ ocr_exec,
           OCR_EXEC H = Some ocr_exec ∧ ocr_exec ≠ "" ∧
           (processes new = [ocr_command ocr_exec cfg p1 p2] ∨
            processes new = [ocr_command ocr_exec cfg p1 p2; gs_command H cfg out p2]))
  end.
Proof.
  destruct w as [h s f c].
  unfold_task. rewrite ?LEVELS_resolved. repeat step; cbn.
  all: eexists; (split; [rewrite <- ?app_assoc; reflexivity|]); cbn.
  all: try (left; reflexivity).
  all: try (right; left; reflexivity).
  all: right; right.
  all: match goal with
       | Ht : truthy (OCR_EXEC _) = Some ?exe |- _ =>
           apply truthy_Some in Ht as [Ht ?]; exists exe
       end.
  all: split; [done|]; split; [done|].
  all: first [left; reflexivity | right; reflexivity].
Qed.

(** X12: the only programs a run of [compress_pdf_task] ever starts are
    the OCR tool, on [p1.pdf] into [p2.pdf], and then Ghostscript; and
    Ghostscript reads [p2.pdf] exactly in the runs where the OCR tool ran
    before it, and [p1.pdf] otherwise. The OCR tool runs only if
    [OCR_EXEC] was found. *)
Theorem compress_process_order H task_id url level w :
  let tmp := mkdtemp H (fs w) in
  let p1 := os_path_join H tmp "p1.pdf" in
  let p2 := os_path_join H tmp "p2.pdf" in
  let out := os_path_join H tmp "out.pdf" in
  let cfg := profile_of_name level in
  ∃ new,
    calls (compress_pdf_task H task_id url level w).2 = calls w ++ new ∧
    (processes new = [] ∨
     processes new = [gs_command H cfg out p1] ∨
     ∃ ocr_exec,
       OCR_EXEC H = Some ocr_exec ∧ ocr_exec ≠ "" ∧
       (processes new = [ocr_command ocr_exec cfg p1 p2] ∨
        processes new = [ocr_command ocr_exec cfg p1 p2; gs_command H cfg out p2])).
Proof.
  pose proof (compress_process_shapes H task_id url level w) as Hs.
  by destruct (compress_pdf_task H task_id url level w).
Qed.

Lemma hset_lookup_ne task_id other mapping h :
  other ≠ task_id → hset task_id mapping h !! other = h !! other.
Proof. intros Hne. unfold hset. by rewrite lookup_insert_ne. Qed.

Lemma compress_touches_one_job H task_id url level w other :
  other ≠ task_id →
  match compress_pdf_task H task_id url level w with
  | (_, w') =>
      redis_hashes w' !! other = redis_hashes w !! other ∧
      ∃ msgs, redis_stream w' = redis_stream w ++ msgs ∧
              Forall (λ cm, cm.1 = "progress:" +:+ task_id) msgs
  end.
Proof.
  intros Hne. destruct w as [h s f c].
  unfold_task. rewrite ?LEVELS_resolved. repeat step; cbn.
  all: rewrite ?hset_lookup_ne by done.
  all: split; [done|].
  all: eexists; (split; [rewrite <- ?app_assoc; reflexivity|]).
  all: repeat constructor.
Qed.

(** X13: a run of [compress_pdf_task] writes to no record but its own
    job's, and publishes on no channel but [progress:<task_id>]. *)
Theorem compress_job_isolation H task_id url level w other :
  other ≠ task_id →
  let w' := (compress_pdf_task H task_id url level w).2 in
  redis_hashes w' !! other = redis_hashes w !! other ∧
  ∃ msgs, redis_stream w' = redis_stream w ++ msgs ∧
          Forall (λ cm, cm.1 = "progress:" +:+ task_id) msgs.
Proof.
  intros Hne. pose proof (compress_touches_one_job H task_id url level w other Hne) as Hs.
  by destruct (compress_pdf_task H task_id url level w).
Qed.

Lemma compress_job_isolation_witness :
  let w0 := World {["job-0" := {["status" := "completed"]}]} [] ∅ [] in
  let w' := (compress_pdf_task (sample_host (inr sample_payload) None)
               "job-1" "https://files.example/in.pdf" "low" w0).2 in
  redis_hashes w' !! "job-0" = Some {["status" := "completed"]}.
Proof.
  intros w0 w'.
  destruct (compress_job_isolation (sample_host (inr sample_payload) None)
              "job-1" "https://files.example/in.pdf" "low" w0 "job-0") as [Hrec _].
  - discriminate.
  - etrans; [exact Hrec | reflexivity].
Defined.

Lemma compress_needs_processes H task_id url level w :
  (∀ cmd f, (subprocess_run H cmd f).1 ≠ inr 0%Z) →
  match compress_pdf_task H task_id url level w with
  | (o, w') =>
      (∀ cloud_url, o ≠ Return cloud_url) ∧
      job_field w' task_id "status" = Some "failed" ∧
      ∃ new, calls w' = calls w ++ new ∧ Forall (λ c, is_upload c = false) new
  end.
Proof.
  intros Hfail. destruct w as [h s f c].
  unfold_task. rewrite ?LEVELS_resolved. repeat step; cbn.
  all: try match goal with
       | Hrun : subprocess_run _ ?cmd ?g = (inr ?z, _), Hz : (?z =? 0)%Z = true |- _ =>
           exfalso; apply Z.eqb_eq in Hz; subst z; apply (Hfail cmd g);
           rewrite Hrun; reflexivity
       end.
  all: split; [done|].
  all: rewrite !hget_hset; split; [done|].
  all: eexists; (split; [rewrite <- ?app_assoc; reflexivity|]).
  all: repeat constructor.
Qed.

(** X14: on a host where no child process exits with status 0, no run of
    [compress_pdf_task] returns, none uploads anything, and every job ends
    recorded as failed. *)
Theorem compress_needs_ghostscript H task_id url level w :
  (∀ cmd f, (subprocess_run H cmd f).1 ≠ inr 0%Z) →
  let r := compress_pdf_task H task_id url level w in
  (∀ cloud_url, r.1 ≠ Return cloud_url) ∧
  job_field r.2 task_id "status" = Some "failed" ∧
  ∃ new, calls r.2 = calls w ++ new ∧ Forall (λ c, is_upload c = false) new.
Proof.
  intros Hfail. pose proof (compress_needs_processes H task_id url level w Hfail) as Hs.
  by destruct (compress_pdf_task H task_id url level w).
Qed.

Lemma compress_needs_ghostscript_witness :
  let r := compress_pdf_task windows_host "job-1" "https://files.example/in.pdf"
             "high" empty_world in
  job_field r.2 "job-1" "status" = Some "failed" ∧
  job_field r.2 "job-1" "error" =
    Some "Process Error: Command returned non-zero exit status 1.".
Proof.
  intros r.
  destruct (compress_needs_ghostscript windows_host "job-1"
              "https://files.example/in.pdf" "high" empty_world) as (_ & Hst & _).
  - intros cmd f. discriminate.
  - split; [exact Hst|]. vm_compute. reflexivity.
Defined.

(** ** More on page extraction *)

Lemma extract_success_report H task_id url start_page end_page w :
  match extract_pdf_task H task_id url start_page end_page w with
  | (Return result_url, w') =>
      job_field w' task_id "status" = Some "completed" ∧
      job_field w' task_id "progress" = Some "100" ∧
      job_field w' task_id "result_url" = Some result_url ∧
      (∃ doc buffer response,
         fitz_save H doc = inr buffer ∧ buffer ≠ [] ∧
         cloudinary_upload H buffer (task_id +:+ ".pdf") = inr response ∧
         response !! "secure_url" = Some result_url) ∧
      ∃ msgs,
        redis_stream w' = redis_stream w ++ msgs ∧
        progress_members msgs =
          [JNumber 5; JNumber 15; JNumber 30; JNumber 60; JNumber 80; JString "100"]
  | (Raise _, _) => True
  end.
Proof.
  destruct w as [h s f c].
  unfold_task. repeat step; cbn.
  all: try exact I.
  rewrite !hget_hset; cbn.
  repeat (split; [done|]). split.
  - eexists _, _, _. split; [eassumption|]. split; [|by eauto].
    intros ->. discriminate.
  - rewrite <- !app_assoc. eexists. split; reflexivity.
Qed.

(** X15: when [extract_pdf_task] returns a URL, that URL is the
    [secure_url] of the upload, under the public id [<task_id>.pdf], of the
    non-empty bytes the PDF writer produced; the record holds it with
    [status=completed]; and the progress reported was the numbers 5, 15, 30,
    60, 80 followed by the string "100". *)
Theorem extract_success_record H task_id url start_page end_page w result_url w' :
  extract_pdf_task H task_id url start_page end_page w = (Return result_url, w') →
  job_field w' task_id "status" = Some "completed" ∧
  job_field w' task_id "progress" = Some "100" ∧
  job_field w' task_id "result_url" = Some result_url ∧
  (∃ doc buffer response,
     fitz_save H doc = inr buffer ∧ buffer ≠ [] ∧
     cloudinary_upload H buffer (task_id +:+ ".pdf") = inr response ∧
     response !! "secure_url" = Some result_url) ∧
  ∃ msgs,
    redis_stream w' = redis_stream w ++ msgs ∧
    progress_members msgs =
      [JNumber 5; JNumber 15; JNumber 30; JNumber 60; JNumber 80; JString "100"].
Proof.
  intros Hrun.
  pose proof (extract_success_report H task_id url start_page end_page w) as Hs.
  by rewrite Hrun in Hs.
Qed.

Lemma extract_success_record_witness :
  let w' := (extract_pdf_task (sample_host (inr sample_payload) None)
               "job-2" "https://files.example/in.pdf" 1 2 empty_world).2 in
  job_field w' "job-2" "result_url" = Some "https://res.example/job.pdf" ∧
  progress_members (redis_stream w') =
    [JNumber 5; JNumber 15; JNumber 30; JNumber 60; JNumber 80; JString "100"].
Proof.
  intros w'.
  destruct (extract_success_record (sample_host (inr sample_payload) None)
              "job-2" "https://files.example/in.pdf" 1 2 empty_world
              "https://res.example/job.pdf" w')
    as (_ & _ & Hurl & _ & msgs & Hstream & Hprog).
  - vm_compute. reflexivity.
  - split; [exact Hurl|]. rewrite Hstream. exact Hprog.
Defined.

Lemma extract_body_no_result_url H task_id url start_page end_page w :
  match extract_body H task_id url start_page end_page w with
  | (Return _, _) => True
  | (Raise _, wb) =>
      (∃ msgs, redis_stream wb = redis_stream w ++ msgs ∧
               Forall (λ cm, member "result_url" cm.2 = None) msgs) ∧
      job_field wb task_id "result_url" = job_field w task_id "result_url"
  end.
Proof.
  destruct w as [h s f c].
  unfold_task. repeat step; cbn.
  all: try exact I.
  all: split; [rewrite <- ?app_assoc; eexists; split; [reflexivity|];
               repeat constructor|].
  all: by rewrite ?hget_hset.
Qed.

(** X16: whatever exception [e] the [try] block of [extract_pdf_task]
    raises, the task records [status=failed] with [error] equal to [str(e)],
    publishes the same two fields last, and raises [e] itself; no message of
    the run carries a [result_url] and the record's [result_url] is not
    written. *)
Theorem extract_failure_recorded H task_id url start_page end_page w e wb :
  extract_body H task_id url start_page end_page w = (Raise e, wb) →
  ∃ w' msgs,
    extract_pdf_task H task_id url start_page end_page w = (Raise e, w') ∧
    job_field w' task_id "status" = Some "failed" ∧
    job_field w' task_id "error" = Some (exn_text e) ∧
    redis_stream w' =
      redis_stream w ++ msgs ++
        [("progress:" +:+ task_id,
          [("status", JString "failed"); ("error", JString (exn_text e))])] ∧
    Forall (λ cm, member "result_url" cm.2 = None) msgs ∧
    job_field w' task_id "result_url" = job_field w task_id "result_url".
Proof.
  intros Hbody.
  pose proof (extract_body_no_result_url H task_id url start_page end_page w) as Hno.
  rewrite Hbody in Hno. destruct Hno as ((msgs & Hstream & Hmsgs) & Hurl).
  eexists _, msgs. split.
  { unfold extract_pdf_task, try_except_reraise. rewrite Hbody.
    reflexivity. }
  destruct wb as [hb sb fb cb]. cbn in *.
  rewrite !hget_hset. cbn. rewrite Hstream, <- app_assoc. done.
Qed.

Lemma extract_failure_recorded_witness :
  ∃ w' msgs,
    extract_pdf_task (sample_host (inl connection_error) None)
      "job-2" "https://files.example/in.pdf" 1 2 empty_world =
      (Raise connection_error, w') ∧
    job_field w' "job-2" "status" = Some "failed" ∧
    job_field w' "job-2" "error" = Some "connection refused" ∧
    redis_stream w' =
      redis_stream empty_world ++ msgs ++
        [("progress:" +:+ "job-2",
          [("status", JString "failed"); ("error", JString "connection refused")])] ∧
    Forall (λ cm, member "result_url" cm.2 = None) msgs ∧
    job_field w' "job-2" "result_url" = job_field empty_world "job-2" "result_url".
Proof.
  apply (extract_failure_recorded (sample_host (inl connection_error) None)
           "job-2" "https://files.example/in.pdf" 1 2 empty_world connection_error
           (extract_body (sample_host (inl connection_error) None)
              "job-2" "https://files.example/in.pdf" 1 2 empty_world).2).
  vm_compute. reflexivity.
Defined.

Lemma extract_frame H task_id url start_page end_page w other :
  other ≠ task_id →
  match extract_pdf_task H task_id url start_page end_page w with
  | (_, w') =>
      fs w' = fs w ∧
      redis_hashes w' !! other = redis_hashes w !! other ∧
      ∃ msgs, redis_stream w' = redis_stream w ++ msgs ∧
              Forall (λ cm, cm.1 = "progress:" +:+ task_id) msgs
  end.
Proof.
  intros Hne. destruct w as [h s f c].
  unfold_task. repeat step; cbn.
  all: rewrite ?hset_lookup_ne by done.
  all: split; [done|]; split; [done|].
  all: eexists; (split; [rewrite <- ?app_assoc; reflexivity|]).
  all: repeat constructor.
Qed.

(** X17: a run of [extract_pdf_task] never touches the file system (the
    PDF is handled in memory), writes to no record but its own job's, and
    publishes on no channel but [progress:<task_id>]. *)
Theorem extract_job_isolation H task_id url start_page end_page w other :
  other ≠ task_id →
  let w' := (extract_pdf_task H task_id url start_page end_page w).2 in
  fs w' = fs w ∧
  redis_hashes w' !! other = redis_hashes w !! other ∧
  ∃ msgs, redis_stream w' = redis_stream w ++ msgs ∧
          Forall (λ cm, cm.1 = "progress:" +:+ task_id) msgs.
Proof.
  intros Hne.
  pose proof (extract_frame H task_id url start_page end_page w other Hne) as Hs.
  by destruct (extract_pdf_task H task_id url start_page end_page w).
Qed.

Lemma extract_job_isolation_witness :
  let w0 := World {["job-0" := {["status" := "completed"]}]} []
              {["/data/keep.pdf" := File sample_payload]} [] in
  let w' := (extract_pdf_task (sample_host (inr sample_payload) None)
               "job-2" "https://files.example/in.pdf" 1 2 w0).2 in
  fs w' = fs w0 ∧ redis_hashes w' !! "job-0" = Some {["status" := "completed"]}.
Proof.
  intros w0 w'.
  destruct (extract_job_isolation (sample_host (inr sample_payload) None)
              "job-2" "https://files.example/in.pdf" 1 2 w0 "job-0") as (Hfs & Hrec & _).
  - discriminate.
  - split; [exact Hfs|]. etrans; [exact Hrec | reflexivity].
Defined.

(** X18: when the range is valid but the PDF writer produces no bytes,
    [extract_pdf_task] raises [RuntimeError("Extracted PDF is empty")],
    records the job as failed with that message, and has not called the
    upload. *)
Theorem extract_empty_output H task_id url start_page end_page w content original_pdf :
  requests_get H url = inr content →
  fitz_open H content = inr original_pdf →
  invalid_page_range start_page end_page (Z.of_nat (length original_pdf)) = false →
  fitz_save H (insert_pdf [] original_pdf (start_page - 1) (end_page - 1)) = inr [] →
  let r := extract_pdf_task H task_id url start_page end_page w in
  r.1 = Raise (Exn RuntimeError "Extracted PDF is empty") ∧
  job_field r.2 task_id "status" = Some "failed" ∧
  job_field r.2 task_id "error" = Some "Extracted PDF is empty" ∧
  calls r.2 =
    calls w ++
      [requests_get_call url; fitz_open_call;
       fitz_insert_pdf_call (start_page - 1) (end_page - 1);
       fitz_save_call (insert_pdf [] original_pdf (start_page - 1) (end_page - 1))].
Proof.
  intros Hget Hopen Hrange Hsave r. subst r. destruct w as [h s f c].
  unfold_task. cbn. rewrite Hget. cbn. rewrite Hopen. cbn. rewrite Hrange. cbn.
  rewrite Hsave. cbn. rewrite !hget_hset, <- !app_assoc. done.
Qed.

Lemma extract_empty_output_witness :
  let r := extract_pdf_task windows_host "job-2" "https://files.example/in.pdf"
             1 1 empty_world in
  r.1 = Raise (Exn RuntimeError "Extracted PDF is empty") ∧
  job_field r.2 "job-2" "status" = Some "failed" ∧
  job_field r.2 "job-2" "error" = Some "Extracted PDF is empty" ∧
  calls r.2 =
    calls empty_world ++
      [requests_get_call "https://files.example/in.pdf"; fitz_open_call;
       fitz_insert_pdf_call (1 - 1) (1 - 1);
       fitz_save_call (insert_pdf [] [text_page] (1 - 1) (1 - 1))].
Proof.
  exact (extract_empty_output windows_host "job-2" "https://files.example/in.pdf"
           1 1 empty_world sample_payload [text_page] eq_refl eq_refl eq_refl eq_refl).
Defined.

(** ** Image conversion *)

Lemma ascii_upper_lower c : ascii_upper (ascii_lower c) = ascii_upper c.
Proof. destruct c as [[] [] [] [] [] [] [] []]; reflexivity. Qed.

Lemma ascii_lower_upper c : ascii_lower (ascii_upper c) = ascii_lower c.
Proof. destruct c as [[] [] [] [] [] [] [] []]; reflexivity. Qed.

Lemma str_upper_lower s : str_upper (str_lower s) = str_upper s.
Proof.
  induction s as [|c rest IH]; [done|].
  unfold str_upper, str_lower in *. simpl. by rewrite ascii_upper_lower, IH.
Qed.

Lemma str_lower_upper s : str_lower (str_upper s) = str_lower s.
Proof.
  induction s as [|c rest IH]; [done|].
  unfold str_upper, str_lower in *. simpl. by rewrite ascii_lower_upper, IH.
Qed.

Lemma str_lower_idemp s : str_lower (str_lower s) = str_lower s.
Proof. by rewrite <- (str_lower_upper (str_lower s)), str_upper_lower, str_lower_upper. Qed.

Lemma PILLOW_FORMATS_lookup (k : string) :
  PILLOW_FORMATS !! k =
    if decide (k = "jpg") then Some "JPEG"
    else if decide (k = "jpeg") then Some "JPEG"
    else if decide (k = "png") then Some "PNG"
    else if decide (k = "webp") then Some "WEBP"
    else if decide (k = "bmp") then Some "BMP"
    else if decide (k = "tiff") then Some "TIFF"
    else if decide (k = "tif") then Some "TIFF"
    else if decide (k = "gif") then Some "GIF"
    else if decide (k = "ico") then Some "ICO"
    else if decide (k = "pdf") then Some "PDF"
    else None.
Proof.
  unfold PILLOW_FORMATS.
  repeat (case_decide; [subst k; reflexivity | rewrite lookup_insert_ne by done]).
  apply lookup_empty.
Qed.

(** The format a name normalises to determines the name's upper case as far
    as the mode conversion looks at it. *)
Lemma PILLOW_FORMATS_upper (target_format normalized : string) :
  PILLOW_FORMATS !! str_lower target_format = Some normalized →
  (normalized = "PNG" ↔ str_upper target_format = "PNG") ∧
  (normalized = "PDF" ↔ str_upper target_format = "PDF") ∧
  (str_upper target_format = "JPEG" → normalized = "JPEG") ∧
  normalized ≠ "".
Proof.
  rewrite PILLOW_FORMATS_lookup. rewrite <- (str_upper_lower target_format).
  repeat case_decide; intros [= <-];
    match goal with Hk : str_lower _ = _ |- _ => rewrite Hk end;
    repeat split; intros; done.
Qed.

Lemma convert_save_wellformed C task_id url target_format w log :
  match convert_image_task C task_id url target_format (w, log) with
  | (_, (_, log')) =>
      ∃ new,
        log' = log ++ new ∧
        Forall (λ c,
          match c with
          | image_save_call im format save_kwargs =>
              PILLOW_FORMATS !! str_lower target_format = Some format ∧
              (format = "PNG" → mode im = "RGBA") ∧
              (format = "PDF" → mode im = "RGB") ∧
              (str_upper target_format = "JPEG" →
                 mode im ≠ "RGBA" ∧ mode im ≠ "P") ∧
              save_kwargs =
                (if String.eqb format "JPEG"
                 then [("quality", ArgInt 95); ("optimize", ArgBool true)]
                 else [])
          | _ => True
          end) new
  end.
Proof.
  destruct w as [h s f c].
  unfold_convert. repeat step; cbn.
  all: eexists; (split; [rewrite <- ?app_assoc; reflexivity|]).
  all: repeat match goal with
       | Ht : truthy _ = Some _ |- _ => apply truthy_Some in Ht as [Ht _]
       end.
  all: tests_to_props.
  all: repeat (apply Forall_cons; split); try apply Forall_nil; try exact Logic.I.
  all: match goal with
       | Hf : PILLOW_FORMATS !! _ = Some _ |- _ =>
           destruct (PILLOW_FORMATS_upper _ _ Hf) as (Hpng & Hpdf & Hjpeg & _)
       end.
  all: split; [done|].
  all: cbn; intuition congruence.
Qed.

(** X19: whenever [convert_image_task] saves an image, the format it
    passes is the entry of [PILLOW_FORMATS] for the lower-cased name, with
    [quality=95, optimize=True] for JPEG and no options otherwise; a PNG is
    always saved from an RGBA image and a PDF from an RGB image; and an
    image requested under the name "jpeg" (in any case) is never saved in
    mode RGBA or P. *)
Theorem convert_saves_in_fitting_mode C task_id url target_format w log :
  ∃ new,
    (convert_image_task C task_id url target_format (w, log)).2.2 = log ++ new ∧
    Forall (λ c,
      match c with
      | image_save_call im format save_kwargs =>
          PILLOW_FORMATS !! str_lower target_format = Some format ∧
          (format = "PNG" → mode im = "RGBA") ∧
          (format = "PDF" → mode im = "RGB") ∧
          (str_upper target_format = "JPEG" →
             mode im ≠ "RGBA" ∧ mode im ≠ "P") ∧
          save_kwargs =
            (if String.eqb format "JPEG"
             then [("quality", ArgInt 95); ("optimize", ArgBool true)]
             else [])
      | _ => True
      end) new.
Proof.
  pose proof (convert_save_wellformed C task_id url target_format w log) as Hs.
  by destruct (convert_image_task C task_id url target_format (w, log)) as [o [w' log']].
Qed.

Lemma convert_unsupported C task_id url target_format w log :
  PILLOW_FORMATS !! str_lower target_format = None →
  match convert_image_task C task_id url target_format (w, log) with
  | (o, (w', log')) =>
      (∀ result_url, o ≠ Return result_url) ∧
      job_field w' task_id "status" = Some "failed" ∧
      (∀ content im,
         image_get C url = inr content → image_open C content = inr im →
         o = Raise (Exn ValueError ("Unsupported format: " +:+ target_format)) ∧
         job_field w' task_id "error" =
           Some ("Unsupported format: " +:+ target_format)) ∧
      ∃ new,
        log' = log ++ new ∧
        Forall (λ c,
          match c with
          | image_save_call _ _ _ | image_upload_call _ _ _ => False
          | _ => True
          end) new
  end.
Proof.
  intros Hnone. destruct w as [h s f c].
  unfold_convert. rewrite Hnone. repeat step; cbn.
  all: split; [done|].
  all: rewrite !hget_hset; split; [done|].
  all: split; [intros ? ? ? ?; first [congruence | done]|].
  all: eexists; (split; [rewrite <- ?app_assoc; reflexivity|]).
  all: repeat constructor.
Qed.

(** X20: for a target format whose lower-cased name is not a key of
    [PILLOW_FORMATS], no run of [convert_image_task] returns, none saves or
    uploads anything, and the job ends recorded as failed; when the image
    was downloaded and opened, the exception is
    [ValueError("Unsupported format: <target_format>")], with the name as
    the caller wrote it. *)
Theorem convert_rejects_unknown_format C task_id url target_format w log :
  PILLOW_FORMATS !! str_lower target_format = None →
  let r := convert_image_task C task_id url target_format (w, log) in
  (∀ result_url, r.1 ≠ Return result_url) ∧
  job_field r.2.1 task_id "status" = Some "failed" ∧
  (∀ content im,
     image_get C url = inr content → image_open C content = inr im →
     r.1 = Raise (Exn ValueError ("Unsupported format: " +:+ target_format)) ∧
     job_field r.2.1 task_id "error" =
       Some ("Unsupported format: " +:+ target_format)) ∧
  ∃ new,
    r.2.2 = log ++ new ∧
    Forall (λ c,
      match c with
      | image_save_call _ _ _ | image_upload_call _ _ _ => False
      | _ => True
      end) new.
Proof.
  intros Hnone.
  pose proof (convert_unsupported C task_id url target_format w log Hnone) as Hs.
  by destruct (convert_image_task C task_id url target_format (w, log)) as [o [w' log']].
Qed.

Lemma convert_rejects_unknown_format_witness :
  let r := convert_image_task (sample_imaging rgba_image)
             "job-3" "https://files.example/in.png" "HEIC" (empty_world, []) in
  r.1 = Raise (Exn ValueError "Unsupported format: HEIC") ∧
  job_field r.2.1 "job-3" "error" = Some "Unsupported format: HEIC".
Proof.
  intros r.
  destruct (convert_rejects_unknown_format (sample_imaging rgba_image)
              "job-3" "https://files.example/in.png" "HEIC" empty_world [])
    as (_ & _ & Herr & _).
  - reflexivity.
  - exact (Herr sample_payload rgba_image eq_refl eq_refl).
Defined.





Lemma convert_upload_wellformed C task_id url target_format w log :
  match convert_image_task C task_id url target_format (w, log) with
  | (_, (_, log')) =>
      ∃ new,
        log' = log ++ new ∧
        Forall (λ c,
          match c with
          | image_upload_call data format resource_type =>
              format = str_lower target_format ∧
              (resource_type = "raw" ∧ format = "pdf" ∨
               resource_type = "image" ∧ format ≠ "pdf") ∧
              ∃ im normalized save_kwargs,
                image_save_call im normalized save_kwargs ∈ new ∧
                image_save C im normalized save_kwargs = inr data
          | _ => True
          end) new
  end.
Proof.
  destruct w as [h s f c].
  unfold_convert. repeat step; cbn.
  all: eexists; (split; [rewrite <- ?app_assoc; reflexivity|]).
  all: tests_to_props.
  all: repeat (apply Forall_cons; split); try apply Forall_nil; try exact Logic.I.
  all: split; [done|].
  all: split; [destruct (String.eqb_spec (str_lower target_format) "pdf"); by eauto|].
  all: eexists _, _, _; split; [|eassumption].
  all: cbn [app]; repeat first [apply list_elem_of_here | apply list_elem_of_further].
Qed.

(** X22: whenever [convert_image_task] uploads, the bytes are those the
    preceding save produced, the [format] argument is the lower-cased
    target name, and [resource_type] is "raw" when that name is "pdf" and
    "image" for every other name. *)
Theorem convert_upload_arguments C task_id url target_format w log :
  ∃ new,
    (convert_image_task C task_id url target_format (w, log)).2.2 = log ++ new ∧
    Forall (λ c,
      match c with
      | image_upload_call data format resource_type =>
          format = str_lower target_format ∧
          (resource_type = "raw" ∧ format = "pdf" ∨
           resource_type = "image" ∧ format ≠ "pdf") ∧
          ∃ im normalized save_kwargs,
            image_save_call im normalized save_kwargs ∈ new ∧
            image_save C im normalized save_kwargs = inr data
      | _ => True
      end) new.
Proof.
  pose proof (convert_upload_wellformed C task_id url target_format w log) as Hs.
  by destruct (convert_image_task C task_id url target_format (w, log)) as [o [w' log']].
Qed.

Lemma truthy_nonempty s : s ≠ "" → truthy (Some s) = Some s.
Proof. intros Hs. unfold truthy. apply String.eqb_neq in Hs. by rewrite Hs. Qed.

(** X23: a supported format name may be written in any mix of upper and
    lower case: two target names with the same lower-cased form give the
    same run of [convert_image_task], outcome, reports and calls alike. *)
Theorem convert_case_insensitive C task_id url target_format target_format' st :
  str_lower target_format = str_lower target_format' →
  is_Some (PILLOW_FORMATS !! str_lower target_format) →
  convert_image_task C task_id url target_format st =
  convert_image_task C task_id url target_format' st.
Proof.
  intros Hlower [normalized Hfmt].
  destruct (PILLOW_FORMATS_upper _ _ Hfmt) as (_ & _ & _ & Hne).
  unfold convert_image_task, convert_body, convert_mode.
  rewrite <- (str_upper_lower target_format), <- (str_upper_lower target_format').
  rewrite <- Hlower, Hfmt, (truthy_nonempty _ Hne). reflexivity.
Qed.

Lemma convert_case_insensitive_witness :
  convert_image_task (sample_imaging rgba_image)
    "job-3" "https://files.example/in.png" "Pdf" (empty_world, []) =
  convert_image_task (sample_imaging rgba_image)
    "job-3" "https://files.example/in.png" "PDF" (empty_world, []).
Proof.
  apply convert_case_insensitive; [reflexivity|].
  exists "PDF". reflexivity.
Defined.

Lemma convert_success_report C task_id url target_format w log :
  match convert_image_task C task_id url target_format (w, log) with
  | (Return result_url, (w', _)) =>
      job_field w' task_id "status" = Some "completed" ∧
      job_field w' task_id "progress" = Some "100" ∧
      job_field w' task_id "result_url" = Some result_url ∧
      ∃ msgs,
        redis_stream w' = redis_stream w ++ msgs ∧
        progress_members msgs =
          [JNumber 10; JNumber 30; JNumber 60; JNumber 80; JString "100"]
  | (Raise e, (w', _)) =>
      job_field w' task_id "status" = Some "failed" ∧
      job_field w' task_id "error" = Some (exn_text e) ∧
      job_field w' task_id "result_url" = job_field w task_id "result_url" ∧
      ∃ msgs,
        redis_stream w' = redis_stream w ++ msgs ∧
        Forall (λ cm, member "result_url" cm.2 = None) msgs
  end.
Proof.
  destruct w as [h s f c].
  unfold_convert. repeat step; cbn.
  all: rewrite !hget_hset; cbn.
  all: repeat (split; [done|]).
  all: rewrite <- ?app_assoc; eexists; (split; [reflexivity|]).
  all: first [reflexivity | repeat constructor].
Qed.

(** X24: a run of [convert_image_task] that returns a URL has recorded it
    as [result_url] with [status=completed], after reporting progress 10,
    30, 60 and 80 as numbers and "100" as a string; a run that raises [e]
    has recorded [status=failed] with [error] equal to [str(e)], and neither
    published nor recorded a [result_url]. *)
Theorem convert_reports_outcome C task_id url target_format w log :
  let r := convert_image_task C task_id url target_format (w, log) in
  match r.1 with
  | Return result_url =>
      job_field r.2.1 task_id "status" = Some "completed" ∧
      job_field r.2.1 task_id "progress" = Some "100" ∧
      job_field r.2.1 task_id "result_url" = Some result_url ∧
      ∃ msgs,
        redis_stream r.2.1 = redis_stream w ++ msgs ∧
        progress_members msgs =
          [JNumber 10; JNumber 30; JNumber 60; JNumber 80; JString "100"]
  | Raise e =>
      job_field r.2.1 task_id "status" = Some "failed" ∧
      job_field r.2.1 task_id "error" = Some (exn_text e) ∧
      job_field r.2.1 task_id "result_url" = job_field w task_id "result_url" ∧
      ∃ msgs,
        redis_stream r.2.1 = redis_stream w ++ msgs ∧
        Forall (λ cm, member "result_url" cm.2 = None) msgs
  end.
Proof.
  pose proof (convert_success_report C task_id url target_format w log) as Hs.
  by destruct (convert_image_task C task_id url target_format (w, log))
    as [[result_url|e] [w' log']].
Qed.

(** A PNG request on the sample collaborators, end to end. *)
Example sample_conversion_trace :
  let r := convert_image_task (sample_imaging (Image "P" [Byte.x01]))
             "job-3" "https://files.example/in.gif" "png" (empty_world, []) in
  r.1 = Return "https://res.example/converted.png" ∧
  r.2.2 =
    [image_get_call "https://files.example/in.gif";
     image_open_call sample_payload;
     image_convert_call (Image "P" [Byte.x01]) "RGBA";
     image_save_call (Image "RGBA" [Byte.x01]) "PNG" [];
     image_upload_call sample_payload "png" "image"].
Proof. vm_compute. split; reflexivity. Qed.
